(** * image_to_PDF.py: batch conversion of images to single-page PDFs

    A shallow embedding of [convert_images_to_pdfs] (src/image_to_PDF.py)
    and the properties of its page-size resolution, its geometry and its
    per-file error handling.

    Conventions of the embedding.
    - A Python [str] is a Rocq [string]; [str.lower] acts on the ASCII
      letters, every other character is left as it is.
    - Python numbers (the [int]s of the presets and of the pixel sizes, the
      [float]s of the geometry) live in one carrier [F] with the operations
      the function uses, collected in the class [PyNum].  The branch
      structure of the geometry is proved for every such carrier.  The
      carrier [pyfloat] is the arithmetic of the interpreter: every
      operation is the exact result rounded to the nearest number with a
      significand of 53 bits, ties to even.  Its exponent is not bounded, so
      it is binary64 as long as no result overflows or falls below the
      normal range.  The carrier [Q] is exact arithmetic, without rounding.
    - The collaborators (PIL, FPDF, [os], the console) are an [env] of
      oracles.  Every call, [print] included, is appended to a trace and may
      raise, and the answer of an oracle may depend on the whole trace so
      far, which stands for the state of the file system.
    - [except Exception] catches every value of [exn]; the signals that are
      not derived from [Exception] (KeyboardInterrupt, SystemExit) are not
      part of the model. *)

From Stdlib Require Import ZArith QArith Qfield Qround Qpower Qreduction Lqa Lia List Bool.
From Stdlib Require Import Ascii String.
From stdpp Require Import base option strings gmap fin_maps.
Import ListNotations.

Local Open Scope string_scope.
Local Open Scope list_scope.

(** ** Strings *)

(** [c.lower()] for one character. *)
Definition lower_char (c : ascii) : ascii :=
  let n := N_of_ascii c in
  if ((65 <=? n) && (n <=? 90))%N then ascii_of_N (n + 32) else c.

(** [s.lower()]. *)
Fixpoint lower (s : string) : string :=
  match s with
  | EmptyString => EmptyString
  | String c s' => String (lower_char c) (lower s')
  end.

(** [s.endswith(suffix)] for one suffix: some tail of [s] is [suffix]. *)
Fixpoint endswith (s suffix : string) : bool :=
  if String.eqb s suffix then true
  else match s with
       | EmptyString => false
       | String _ s' => endswith s' suffix
       end.

(** [s.endswith(suffixes)] for a tuple of suffixes. *)
Definition endswith_any (s : string) (suffixes : list string) : bool :=
  existsb (endswith s) suffixes.

(** ** Results and exceptions *)

Record exn := Exn { exn_class : string; exn_text : string }.

(** [str(e)]. *)
Definition str_exn (e : exn) : string := exn_text e.

Inductive result (A : Type) : Type :=
| Ok (a : A)
| Err (e : exn).
Arguments Ok {A} a.
Arguments Err {A} e.

Definition ValueError (text : string) : exn := Exn "ValueError" text.

(** The text is the one of [int / int]; the interpreter words it differently
    for [float] operands in some versions.  No property below reads it. *)
Definition ZeroDivisionError : exn := Exn "ZeroDivisionError" "division by zero".

(** ** Numbers *)

Class PyNum (F : Type) := {
  of_Z : Z -> F;
  (** the literal [2.83464567] *)
  mm_to_pt : F;
  fmul : F -> F -> F;
  fsub : F -> F -> F;
  (** the quotient where the divisor is not zero *)
  fdiv : F -> F -> F;
  (** [a > b] *)
  fgt : F -> F -> bool;
  is_zero : F -> bool;
  two_not_zero : is_zero (of_Z 2) = false;
  fgt_irrefl : forall a, fgt a a = false
}.

(** [a / b]: true division, which raises on a zero divisor. *)
Definition py_div {F} `{PyNum F} (a b : F) : result F :=
  if is_zero b then Err ZeroDivisionError else Ok (fdiv a b).

(** ** Floats *)

(** The integer nearest to [y], the even one of the two when [y] is half way. *)
Definition nearest_even (y : Q) : Z :=
  let f := Qfloor y in
  match Qcompare (y - inject_Z f) (1 # 2) with
  | Lt => f
  | Gt => (f + 1)%Z
  | Eq => if Z.even f then f else (f + 1)%Z
  end.

(** For [q > 0], the exponent [e] with [2^52 <= q / 2^e < 2^53]: the logs of
    the numerator and of the denominator give it up to one, a comparison
    decides. *)
Definition exponent (q : Q) : Z :=
  let l := (Z.log2 (Qnum q) - Z.log2 (Zpos (Qden q)))%Z in
  if Qle_bool (2 ^ l) q then (l - 52)%Z else (l - 53)%Z.

Definition round_pos (q : Q) : Q :=
  let e := exponent q in
  Qred (inject_Z (nearest_even (q / 2 ^ e)) * 2 ^ e).

(** The float nearest to [q]: 53 bits of significand, ties to even. *)
Definition round53 (q : Q) : Q :=
  match Qcompare q 0 with
  | Eq => 0
  | Gt => round_pos q
  | Lt => - round_pos (- q)
  end.

(** Half a unit in the last place of 1: the relative error of a rounding. *)
Definition unit_roundoff : Q := 1 # (2 ^ 53).

(** A Python [float], by its value. *)
Record pyfloat := Float { fval : Q }.

(** An [int] enters an operation as its value (exact below [2^53]); the
    literal is the float nearest to the decimal; every operation rounds
    the exact result once. *)
#[export] Instance PyNum_float : PyNum pyfloat := {|
  of_Z := fun z => Float (inject_Z z);
  mm_to_pt := Float (round53 (283464567 # 100000000));
  fmul := fun a b => Float (round53 (fval a * fval b));
  fsub := fun a b => Float (round53 (fval a - fval b));
  fdiv := fun a b => Float (round53 (fval a / fval b));
  fgt := fun a b => negb (Qle_bool (fval a) (fval b));
  is_zero := fun a => Qeq_bool (fval a) 0;
  two_not_zero := eq_refl;
  fgt_irrefl := fun a =>
    f_equal negb (Z.leb_refl (Qnum (fval a) * QDen (fval a)))
|}.

(** The tolerance of the layout: four roundings. *)
Definition tolerance : Q := 1 # (2 ^ 51).

(** The sizes in the middle of the range of the floats: no result of the
    geometry of such pages and images passes the largest float or falls
    below the smallest normal one, and the arithmetic of [pyfloat] is that
    of binary64. *)
Definition moderate (q : Q) : Prop := (2 ^ (-256) <= q)%Q /\ (q <= 2 ^ 256)%Q.

(** The normal range of binary64. *)
Definition normal (q : Q) : Prop := (2 ^ (-1022) <= q)%Q /\ (q < 2 ^ 1024)%Q.

(** ** Exact arithmetic *)

(** Exact arithmetic on the rationals: no operation rounds. *)
#[export] Instance PyNum_Q : PyNum Q := {|
  of_Z := inject_Z;
  mm_to_pt := 283464567 # 100000000;
  fmul := Qmult;
  fsub := Qminus;
  fdiv := Qdiv;
  fgt := fun a b => negb (Qle_bool a b);
  is_zero := fun a => Qeq_bool a 0;
  two_not_zero := eq_refl;
  fgt_irrefl := fun a => f_equal negb (Z.leb_refl (Qnum a * QDen a))
|}.

(** ** Values of the [page_size] argument *)

Inductive pyval (F : Type) : Type :=
| VStr (s : string)
| VTuple (items : list F)
| VList (items : list F)
| VOther.
Arguments VStr {F} s.
Arguments VTuple {F} items.
Arguments VList {F} items.
Arguments VOther {F}.

(** ** Constants of [convert_images_to_pdfs] *)

Definition supported_formats : list string :=
  [".jpg"; ".jpeg"; ".png"; ".bmp"; ".tiff"; ".gif"].

Definition page_sizes : gmap string (Z * Z) :=
  {[ "A3" := (297, 420)%Z;
     "A4" := (210, 297)%Z;
     "A5" := (148, 210)%Z;
     "letter" := (216, 279)%Z;
     "legal" := (216, 356)%Z ]}.

Definition unsupported_page_size : exn :=
  ValueError "不支持的页面尺寸，请使用'A3','A4','A5','letter','legal'或自定义(宽,高)元组(单位mm)".

(** ** The page-size resolution (lines 29-34) *)

Section Resolver.
Context {F : Type} `{PyNum F}.

(** [page_size.lower() in page_sizes] selects the preset; a tuple or a list
    of length two is unpacked as it is; everything else raises. *)
Definition resolve_page_size (page_size : pyval F) : result (F * F) :=
  match page_size with
  | VStr s =>
      match page_sizes !! lower s with
      | Some (w, h) => Ok (of_Z w, of_Z h)
      | None => Err unsupported_page_size
      end
  | VTuple [page_width; page_height]
  | VList [page_width; page_height] => Ok (page_width, page_height)
  | _ => Err unsupported_page_size
  end.

End Resolver.

(** ** The geometry (lines 59-77) *)

Record image := Image { width : Z; height : Z; mode : string }.

Record layout (F : Type) := Layout {
  pdf_page_width : F;
  pdf_page_height : F;
  img_width : F;
  img_height : F;
  x_pos : F;
  y_pos : F
}.
Arguments Layout {F}.
Arguments pdf_page_width {F}.
Arguments pdf_page_height {F}.
Arguments img_width {F}.
Arguments img_height {F}.
Arguments x_pos {F}.
Arguments y_pos {F}.

(** Sequencing of fallible steps: the first exception ends the sequence. *)
#[export] Instance result_bind : MBind result := fun A B k r =>
  match r with
  | Ok a => k a
  | Err e => Err e
  end.

Section Geometry.
Context {F : Type} `{PyNum F}.

(** Lines 66-77: the display size and the centred position, for a page in
    points and the ratio of the image. *)
Definition fit (pdf_page_width pdf_page_height img_ratio : F) : result (layout F) :=
  page_ratio ← py_div pdf_page_width pdf_page_height;
  '(img_width, img_height) ←
    (if fgt page_ratio img_ratio
     then Ok (fmul pdf_page_height img_ratio, pdf_page_height)
     else h ← py_div pdf_page_width img_ratio; Ok (pdf_page_width, h));
  x_pos ← py_div (fsub pdf_page_width img_width) (of_Z 2);
  y_pos ← py_div (fsub pdf_page_height img_height) (of_Z 2);
  Ok (Layout pdf_page_width pdf_page_height img_width img_height x_pos y_pos).

(** Lines 59-77: the ratio of the image, the page in points, then [fit]. *)
Definition geometry (page_width page_height : F) (img : image) : result (layout F) :=
  img_ratio ← py_div (of_Z (width img)) (of_Z (height img));
  let pdf_page_width := fmul page_width mm_to_pt in
  let pdf_page_height := fmul page_height mm_to_pt in
  fit pdf_page_width pdf_page_height img_ratio.

(** The position of [g] is the centred one (lines 76-77). *)
Definition centred (g : layout F) : Prop :=
  x_pos g = fdiv (fsub (pdf_page_width g) (img_width g)) (of_Z 2) /\
  y_pos g = fdiv (fsub (pdf_page_height g) (img_height g)) (of_Z 2).

End Geometry.

(** ** The collaborators and the trace of their calls *)

(** The two status lines (lines 92 and 95), by their fields. *)
Inductive message (F : Type) : Type :=
| Converted (filename pdf_name : string) (page_width page_height : F)
| Failed (filename text : string).
Arguments Converted {F}.
Arguments Failed {F}.

Definition msg_filename {F} (m : message F) : string :=
  match m with
  | Converted filename _ _ _ => filename
  | Failed filename _ => filename
  end.

Inductive call (F : Type) : Type :=
| PathExists (path : string)
| Makedirs (path : string)
| Listdir (path : string)
| ImageOpen (path : string)
| ImageConvert (img : image) (to_mode : string)
| ImageSave (img : image) (path format : string) (quality : Z) (dpi : Z * Z)
| FpdfNew (unit_ : string) (format : F * F)
| PdfAddPage
| PdfImage (path : string) (x y w h : F)
| PdfOutput (path dest : string)
| Remove (path : string)
| Print (m : message F).
Arguments PathExists {F}.
Arguments Makedirs {F}.
Arguments Listdir {F}.
Arguments ImageOpen {F}.
Arguments ImageConvert {F}.
Arguments ImageSave {F}.
Arguments FpdfNew {F}.
Arguments PdfAddPage {F}.
Arguments PdfImage {F}.
Arguments PdfOutput {F}.
Arguments Remove {F}.
Arguments Print {F}.

Abbreviation trace F := (list (call F)).

(** What the outside world answers.  [path_join] and [splitext] are the pure
    functions of [os.path]; the other fields see the calls made so far.
    [raises] decides the calls whose value the function does not use. *)
Record env (F : Type) := Env {
  path_join : string -> string -> string;
  splitext : string -> string * string;
  path_exists : trace F -> string -> bool;
  listdir : trace F -> string -> result (list string);
  image_open : trace F -> string -> result image;
  raises : trace F -> call F -> option exn
}.
Arguments Env {F}.
Arguments path_join {F}.
Arguments splitext {F}.
Arguments path_exists {F}.
Arguments listdir {F}.
Arguments image_open {F}.
Arguments raises {F}.

(** ** Computations: a trace is threaded, an exception stops the sequence *)

Definition M (F A : Type) : Type := trace F -> trace F * result A.

Definition ret {F A} (a : A) : M F A := fun t => (t, Ok a).

#[export] Instance M_bind {F} : MBind (M F) := fun A B k m t =>
  match m t with
  | (t', Ok a) => k a t'
  | (t', Err e) => (t', Err e)
  end.

Definition lift {F A} (r : result A) : M F A := fun t => (t, r).

(** [try: body except Exception as e: handler e]. *)
Definition try_except {F A} (body : M F A) (handler : exn -> M F A) : M F A :=
  fun t =>
    match body t with
    | (t', Ok a) => (t', Ok a)
    | (t', Err e) => handler e t'
    end.

(** [for x in l: body x]. *)
Fixpoint for_each {F A} (l : list A) (body : A -> M F unit) : M F unit :=
  match l with
  | [] => ret tt
  | x :: l' => body x;; for_each l' body
  end.

(** ** The calls *)

Section Run.
Context {F : Type} `{PyNum F}.
Variable E : env F.

(** A call whose value is not used: logged, then it returns or raises. *)
Definition perform (c : call F) : M F unit := fun t =>
  (t ++ [c], match raises E t c with Some e => Err e | None => Ok tt end).

(** [print(...)]: writes one status line, or raises (a console that cannot
    encode the line, a closed pipe). *)
Definition print (m : message F) : M F unit := perform (Print m).

(** [os.path.exists(path)]. *)
Definition os_path_exists (path : string) : M F bool := fun t =>
  (t ++ [PathExists path], Ok (path_exists E t path)).

(** [os.listdir(path)]. *)
Definition os_listdir (path : string) : M F (list string) := fun t =>
  (t ++ [Listdir path], listdir E t path).

(** [Image.open(path)]. *)
Definition Image_open (path : string) : M F image := fun t =>
  (t ++ [ImageOpen path], image_open E t path).

(** [img.convert(to_mode)]: a new image of the same size in the new mode. *)
Definition Image_convert (img : image) (to_mode : string) : M F image := fun t =>
  (t ++ [ImageConvert img to_mode],
   match raises E t (ImageConvert img to_mode) with
   | Some e => Err e
   | None => Ok (Image (width img) (height img) to_mode)
   end).

(** ** The body of the [try] (lines 45-92) *)

(** The [with] block closes the opened image on every exit; closing is not
    a call of the trace.  The line of success is printed after the block,
    still inside the [try]. *)

Definition convert_one (input_folder output_folder : string)
    (page_width page_height : F) (dpi : Z) (filename : string) : M F unit :=
  let input_path := path_join E input_folder filename in
  let pdf_name := fst (splitext E filename) +:+ ".pdf" in
  let output_path := path_join E output_folder pdf_name in
  img ← Image_open input_path;
  img ← (if negb (String.eqb (mode img) "RGB") then Image_convert img "RGB" else ret img);
  g ← lift (geometry page_width page_height img);
  let temp_path := path_join E output_folder "temp.jpg" in
  perform (ImageSave img temp_path "JPEG" 95 (dpi, dpi));;
  perform (FpdfNew "pt" (pdf_page_width g, pdf_page_height g));;
  perform PdfAddPage;;
  perform (PdfImage temp_path (x_pos g) (y_pos g) (img_width g) (img_height g));;
  perform (PdfOutput output_path "F");;
  perform (Remove temp_path);;
  print (Converted filename pdf_name page_width page_height).

(** ** One turn of the loop (lines 43-95) *)

Definition is_supported (filename : string) : bool :=
  endswith_any (lower filename) supported_formats.

Definition process_file (input_folder output_folder : string)
    (page_width page_height : F) (dpi : Z) (filename : string) : M F unit :=
  if is_supported filename then
    try_except
      (convert_one input_folder output_folder page_width page_height dpi filename)
      (fun e => print (Failed filename (str_exn e)))
  else ret tt.

(** ** The function (lines 6-95) *)

Definition convert_images_to_pdfs (input_folder output_folder : string)
    (page_size : pyval F) (dpi : Z) : M F unit :=
  '(page_width, page_height) ← lift (resolve_page_size page_size);
  present ← os_path_exists output_folder;
  (if negb present then perform (Makedirs output_folder) else ret tt);;
  entries ← os_listdir input_folder;
  for_each entries
    (process_file input_folder output_folder page_width page_height dpi).

(** The script's entry point (lines 98-114). *)
Definition main : M F unit :=
  convert_images_to_pdfs "input_images" "output_pdfs" (VStr "A4") 300.

End Run.

(** ** Reading a trace *)

(** The status lines handed to [print], in order. *)
Definition messages {F} (t : trace F) : list (message F) :=
  omap (fun c => match c with Print m => Some m | _ => None end) t.

(** The files named by the status lines. *)
Definition reported {F} (t : trace F) : list string :=
  msg_filename <$> messages t.

(** The paths the PDF writer wrote to. *)
Definition pdf_outputs {F} (t : trace F) : list string :=
  omap (fun c => match c with PdfOutput path _ => Some path | _ => None end) t.

(** The page formats the PDF writer was created with. *)
Definition page_formats {F} (t : trace F) : list (F * F) :=
  omap (fun c => match c with FpdfNew _ format => Some format | _ => None end) t.

(** The placements (x, y, w, h) of the images put on a page. *)
Definition placements {F} (t : trace F) : list (F * F * F * F) :=
  omap (fun c => match c with PdfImage _ x y w h => Some (x, y, w, h) | _ => None end) t.

(** The image after lines 55-56. *)
Definition as_rgb (img : image) : image :=
  if negb (String.eqb (mode img) "RGB")
  then Image (width img) (height img) "RGB" else img.

(** The calls of lines 53-56 for a file that opens as [img]. *)
Definition open_calls {F} (input_path : string) (img : image) : trace F :=
  ImageOpen input_path ::
  (if negb (String.eqb (mode img) "RGB") then [ImageConvert img "RGB"] else []).

(** The calls of lines 37-38 from the trace [t]. *)
Definition setup_calls {F} (E : env F) (output_folder : string) (t : trace F)
    : trace F :=
  PathExists output_folder ::
  (if path_exists E t output_folder then [] else [Makedirs output_folder]).

(** The calls of lines 81-87 for the image [img] laid out as [g]. *)
Definition write_calls {F} (temp_path output_path : string) (dpi : Z)
    (img : image) (g : layout F) : trace F :=
  [ ImageSave img temp_path "JPEG" 95 (dpi, dpi);
    FpdfNew "pt" (pdf_page_width g, pdf_page_height g);
    PdfAddPage;
    PdfImage temp_path (x_pos g) (y_pos g) (img_width g) (img_height g);
    PdfOutput output_path "F" ].

(** The paths handed to [Image.open]. *)
Definition opens {F} (t : trace F) : list string :=
  omap (fun c => match c with ImageOpen path => Some path | _ => None end) t.

(** The paths handed to [img.save]. *)
Definition saves {F} (t : trace F) : list string :=
  omap (fun c => match c with ImageSave _ path _ _ _ => Some path | _ => None end) t.

(** The images handed to [img.save]. *)
Definition saved_images {F} (t : trace F) : list image :=
  omap (fun c => match c with ImageSave img _ _ _ _ => Some img | _ => None end) t.

(** The paths handed to [os.remove]. *)
Definition removes {F} (t : trace F) : list string :=
  omap (fun c => match c with Remove path => Some path | _ => None end) t.

(** The calls on directories: [os.path.exists], [os.makedirs], [os.listdir]. *)
Definition dir_calls {F} (t : trace F) : trace F :=
  List.filter
    (fun c => match c with PathExists _ | Makedirs _ | Listdir _ => true | _ => false end)
    t.

(** A line of failure (line 95). *)
Definition is_failed {F} (m : message F) : bool :=
  match m with
  | Failed _ _ => true
  | Converted _ _ _ _ => false
  end.

(** Two layouts with equal rationals in every field. *)
Definition layout_equiv (g1 g2 : layout Q) : Prop :=
  (pdf_page_width g1 == pdf_page_width g2)%Q /\
  (pdf_page_height g1 == pdf_page_height g2)%Q /\
  (img_width g1 == img_width g2)%Q /\
  (img_height g1 == img_height g2)%Q /\
  (x_pos g1 == x_pos g2)%Q /\
  (y_pos g1 == y_pos g2)%Q.

(** Two results that raise the same exception or return equal layouts. *)
Definition result_equiv (r1 r2 : result (layout Q)) : Prop :=
  match r1, r2 with
  | Ok g1, Ok g2 => layout_equiv g1 g2
  | Err e1, Err e2 => e1 = e2
  | _, _ => False
  end.

(** ** A sample world *)

(** [posixpath.join] for two components. *)
Definition posix_join (a b : string) : string :=
  if String.prefix "/" b then b
  else if String.eqb a "" || endswith a "/" then a +:+ b
  else a +:+ "/" +:+ b.

(** Splits the reversed path at its last dot, unless a separator comes
    first; [ext] collects the extension in reading order. *)
Fixpoint split_last_dot (rev_path : list ascii) (ext : list ascii)
    : option (list ascii * list ascii) :=
  match rev_path with
  | [] => None
  | c :: rest =>
      if Ascii.eqb c "/" then None
      else if Ascii.eqb c "." then Some (rest, c :: ext)
      else split_last_dot rest (c :: ext)
  end.

(** Whether the file name that ends the reversed root has a character other
    than a dot. *)
Fixpoint has_name (rev_root : list ascii) : bool :=
  match rev_root with
  | [] => false
  | c :: rest =>
      if Ascii.eqb c "/" then false
      else if Ascii.eqb c "." then has_name rest
      else true
  end.

(** [posixpath.splitext]. *)
Definition posix_splitext (p : string) : string * string :=
  match split_last_dot (rev (list_ascii_of_string p)) [] with
  | Some (rev_root, ext) =>
      if has_name rev_root
      then (string_of_list_ascii (rev rev_root), string_of_list_ascii ext)
      else (p, "")
  | None => (p, "")
  end.

(** A directory with four entries; [bad.jpg] is not an image. *)
Definition sample_env : env Q := {|
  path_join := posix_join;
  splitext := posix_splitext;
  path_exists := fun _ _ => false;
  listdir := fun _ _ => Ok ["a.png"; "bad.jpg"; "photo.TXT"; "photo.JPG"];
  image_open := fun _ path =>
    if String.eqb path "in/bad.jpg"
    then Err (Exn "UnidentifiedImageError" "cannot identify image file 'in/bad.jpg'")
    else if String.eqb path "in/a.png" then Ok (Image 1000 2000 "RGBA")
    else Ok (Image 4000 1000 "RGB");
  raises := fun _ _ => None
|}.

(** The sample world with a disk that takes the JPEG and then is full:
    writing the PDF raises. *)
Definition full_disk_env : env Q := {|
  path_join := posix_join;
  splitext := posix_splitext;
  path_exists := fun _ _ => true;
  listdir := fun _ _ => Ok ["a.png"; "photo.JPG"];
  image_open := fun _ _ => Ok (Image 4000 1000 "RGB");
  raises := fun _ c =>
    match c with
    | PdfOutput _ _ => Some (Exn "OSError" "[Errno 28] No space left on device")
    | _ => None
    end
|}.

(** A world whose console cannot write a line of failure: [bad.jpg] is not
    an image, and printing that raises. *)
Definition mute_console_env : env Q := {|
  path_join := posix_join;
  splitext := posix_splitext;
  path_exists := fun _ _ => true;
  listdir := fun _ _ => Ok ["bad.jpg"; "photo.JPG"];
  image_open := fun _ path =>
    if String.eqb path "in/bad.jpg"
    then Err (Exn "UnidentifiedImageError" "cannot identify image file 'in/bad.jpg'")
    else Ok (Image 4000 1000 "RGB");
  raises := fun _ c =>
    match c with
    | Print (Failed _ _) =>
        Some (Exn "UnicodeEncodeError" "'charmap' codec can't encode characters")
    | _ => None
    end
|}.

(** ** Vocabulary of the specification *)

(** The preset names of the specification, in lower case. *)
Definition spec_preset_names : list string := ["a3"; "a4"; "a5"; "letter"; "legal"].

(** A preset name in any letter case. *)
Definition spec_is_preset {F} (page_size : pyval F) : bool :=
  match page_size with
  | VStr s => bool_decide (lower s ∈ spec_preset_names)
  | _ => false
  end.

(** A sequence of exactly two elements. *)
Definition spec_is_pair {F} (page_size : pyval F) : bool :=
  match page_size with
  | VTuple [_; _] | VList [_; _] => true
  | _ => false
  end.

(** The millimetre pair the specification documents for a preset name. *)
Definition spec_preset_mm (name : string) : option (Z * Z) :=
  if String.eqb name "a3" then Some (297, 420)%Z
  else if String.eqb name "a4" then Some (210, 297)%Z
  else if String.eqb name "a5" then Some (148, 210)%Z
  else if String.eqb name "letter" then Some (216, 279)%Z
  else if String.eqb name "legal" then Some (216, 356)%Z
  else None.

(** ** Tactics *)

(** Runs the body of the [try] in [Hrun] by cases on what the world answers. *)
Ltac run_cases Hrun :=
  unfold convert_one, mbind, M_bind, Image_open, Image_convert, print, perform,
    lift, ret in Hrun;
  cbv zeta in Hrun;
  repeat match type of Hrun with
  | context [match image_open ?E ?t ?p with _ => _ end] =>
      destruct (image_open E t p) eqn:?
  | context [match raises ?E ?t ?c with _ => _ end] =>
      destruct (raises E t c) eqn:?
  | context [match geometry ?a ?b ?i with _ => _ end] =>
      destruct (geometry a b i) eqn:?
  | context [if negb ?b then _ else _] => destruct b eqn:?; cbn [negb] in Hrun
  end.

(** * Properties *)

(** ** Strings *)

Lemma lower_char_idem c : lower_char (lower_char c) = lower_char c.
Proof.
  destruct c as [[] [] [] [] [] [] [] []]; reflexivity.
Qed.

Lemma lower_idem s : lower (lower s) = lower s.
Proof.
  induction s as [|c s IH]; simpl; [reflexivity|].
  now rewrite lower_char_idem, IH.
Qed.

Lemma endswith_spec s suffix :
  endswith s suffix = true <-> exists p, s = p +:+ suffix.
Proof.
  induction s as [|c s IH]; cbn [endswith].
  - destruct (String.eqb_spec "" suffix) as [<-|Hne].
    + split; [exists ""; reflexivity | reflexivity].
    + split; [intros [=]|]. intros [p Hp].
      destruct p as [|c' p]; [destruct (Hne Hp) | discriminate Hp].
  - destruct (String.eqb_spec (String c s) suffix) as [<-|Hne].
    + split; [exists ""; reflexivity | reflexivity].
    + rewrite IH. split.
      * intros [p ->]. exists (String c p). reflexivity.
      * intros [p Hp]. destruct p as [|c' p].
        -- exact (False_ind _ (Hne Hp)).
        -- change (String c s = String c' (p +:+ suffix)) in Hp.
           injection Hp as _ ->. exists p. reflexivity.
Qed.

Lemma endswith_any_spec s suffixes :
  endswith_any s suffixes = true <->
  exists ext p, In ext suffixes /\ s = p +:+ ext.
Proof.
  unfold endswith_any. rewrite existsb_exists. split.
  - intros (ext & Hin & Hend). apply endswith_spec in Hend as [p Hp]. eauto.
  - intros (ext & p & Hin & Hp). exists ext. split; [assumption|].
    apply endswith_spec. eauto.
Qed.

(** ** The page-size resolution *)

Lemma page_sizes_lookup k :
  page_sizes !! k =
    if String.eqb k "A3" then Some (297, 420)%Z
    else if String.eqb k "A4" then Some (210, 297)%Z
    else if String.eqb k "A5" then Some (148, 210)%Z
    else if String.eqb k "letter" then Some (216, 279)%Z
    else if String.eqb k "legal" then Some (216, 356)%Z
    else None.
Proof.
  unfold page_sizes.
  destruct (String.eqb_spec k "A3") as [->|?]; [reflexivity|].
  rewrite lookup_insert_ne by congruence.
  destruct (String.eqb_spec k "A4") as [->|?]; [reflexivity|].
  rewrite lookup_insert_ne by congruence.
  destruct (String.eqb_spec k "A5") as [->|?]; [reflexivity|].
  rewrite lookup_insert_ne by congruence.
  destruct (String.eqb_spec k "letter") as [->|?]; [reflexivity|].
  rewrite lookup_insert_ne by congruence.
  destruct (String.eqb_spec k "legal") as [->|?]; [reflexivity|].
  now rewrite lookup_singleton_ne by congruence.
Qed.

Lemma lower_fixed s k : lower s = k -> lower k = k.
Proof. intros <-. apply lower_idem. Qed.

Section ResolverFacts.
Context {F : Type} `{PyNum F}.

(** The string branch of the resolution, by cases on the lowered name. *)
Lemma resolve_str s :
  resolve_page_size (F:=F) (VStr s) =
    if String.eqb (lower s) "letter" then Ok (of_Z 216, of_Z 279)
    else if String.eqb (lower s) "legal" then Ok (of_Z 216, of_Z 356)
    else Err unsupported_page_size.
Proof.
  unfold resolve_page_size. rewrite page_sizes_lookup.
  destruct (String.eqb_spec (lower s) "A3") as [e|_];
    [apply lower_fixed in e; discriminate e|].
  destruct (String.eqb_spec (lower s) "A4") as [e|_];
    [apply lower_fixed in e; discriminate e|].
  destruct (String.eqb_spec (lower s) "A5") as [e|_];
    [apply lower_fixed in e; discriminate e|].
  destruct (String.eqb (lower s) "letter"); [reflexivity|].
  destruct (String.eqb (lower s) "legal"); reflexivity.
Qed.

(** [letter] and [legal] resolve to their documented pairs in any case. *)
Lemma resolve_letter_legal s :
  lower s = "letter" \/ lower s = "legal" ->
  exists w h, spec_preset_mm (lower s) = Some (w, h) /\
              resolve_page_size (F:=F) (VStr s) = Ok (of_Z w, of_Z h).
Proof.
  rewrite resolve_str. intros [-> | ->]; do 2 eexists; split; reflexivity.
Qed.

(** The names [A3], [A4] and [A5] are rejected in any case. *)
Lemma resolve_a_series s :
  lower s = "a3" \/ lower s = "a4" \/ lower s = "a5" ->
  resolve_page_size (F:=F) (VStr s) = Err unsupported_page_size.
Proof.
  rewrite resolve_str. intros [-> | [-> | ->]]; reflexivity.
Qed.

(** A failed resolution ends the call with the trace as it was. *)
Lemma run_resolve_err (E : env F) input_folder output_folder page_size dpi t e :
  resolve_page_size page_size = Err e ->
  convert_images_to_pdfs E input_folder output_folder page_size dpi t = (t, Err e).
Proof.
  intros Hr. unfold convert_images_to_pdfs, mbind, M_bind, lift.
  now rewrite Hr.
Qed.

(** C1: the resolution does not return the documented pair for the presets
    [A3], [A4] and [A5]: in either letter case the lowered name is looked up
    among keys written in upper case and the call raises [ValueError]; so
    does the script's own entry point, whose page size is ['A4']. *)
Theorem C1_a_series_presets_raise (E : env F) (t : trace F) :
  spec_preset_mm (lower "A4") = Some (210, 297)%Z /\
  resolve_page_size (F:=F) (VStr "A4") = Err unsupported_page_size /\
  resolve_page_size (F:=F) (VStr "a4") = Err unsupported_page_size /\
  resolve_page_size (F:=F) (VStr "A3") = Err unsupported_page_size /\
  resolve_page_size (F:=F) (VStr "A5") = Err unsupported_page_size /\
  exn_class unsupported_page_size = "ValueError" /\
  main E t = (t, Err unsupported_page_size).
Proof.
  split; [reflexivity|].
  do 4 (split; [apply resolve_a_series; auto|]).
  split; [reflexivity|].
  apply run_resolve_err, resolve_a_series. auto.
Qed.

(** C2 (amended): a pair of two numbers is returned unchanged as (width,
    height), whatever the sign of its values: the resolution checks the
    length only and never rejects a pair for a value that is not positive. *)
Theorem C2_pair_returned_unchanged (page_width page_height : F) :
  resolve_page_size (VTuple [page_width; page_height]) = Ok (page_width, page_height).
Proof. reflexivity. Qed.

(** C3: a page size that is neither a preset name (in any case) nor a
    sequence of two elements makes the call raise [ValueError] with the
    trace unchanged: no directory was listed, none created, no file opened. *)
Theorem C3_unresolved_page_size_touches_nothing
    (E : env F) (input_folder output_folder : string)
    (page_size : pyval F) (dpi : Z) (t : trace F) :
  spec_is_preset page_size = false ->
  spec_is_pair page_size = false ->
  convert_images_to_pdfs E input_folder output_folder page_size dpi t
    = (t, Err unsupported_page_size) /\
  exn_class unsupported_page_size = "ValueError".
Proof.
  intros Hname Hpair. split; [|reflexivity].
  apply run_resolve_err.
  destruct page_size as [s|items|items|]; try reflexivity.
  - rewrite resolve_str. simpl in Hname.
    apply bool_decide_eq_false in Hname.
    destruct (String.eqb_spec (lower s) "letter") as [e|_].
    { exfalso. apply Hname. rewrite e. unfold spec_preset_names. set_solver. }
    destruct (String.eqb_spec (lower s) "legal") as [e|_]; [|reflexivity].
    exfalso. apply Hname. rewrite e. unfold spec_preset_names. set_solver.
  - destruct items as [|a [|b [|c items]]]; try reflexivity. discriminate Hpair.
  - destruct items as [|a [|b [|c items]]]; try reflexivity. discriminate Hpair.
Qed.

(** C10: a list of two elements resolves to its two elements, as the tuple
    with the same elements does, and the whole call behaves the same. *)
Theorem C10_list_pair_as_tuple (E : env F) (input_folder output_folder : string)
    (page_width page_height : F) (dpi : Z) (t : trace F) :
  resolve_page_size (VList [page_width; page_height]) = Ok (page_width, page_height) /\
  resolve_page_size (VList [page_width; page_height])
    = resolve_page_size (VTuple [page_width; page_height]) /\
  convert_images_to_pdfs E input_folder output_folder
      (VList [page_width; page_height]) dpi t
    = convert_images_to_pdfs E input_folder output_folder
      (VTuple [page_width; page_height]) dpi t.
Proof. repeat split. Qed.

End ResolverFacts.

(** C2: the resolution accepts the pair (0, 100) although its width is not
    positive, so a pair with such a value does not always fail. *)
Lemma C2_nonpositive_pair_accepted :
  ~ (forall a b : Q, (a <= 0 \/ b <= 0)%Q ->
       exists e, resolve_page_size (VTuple [a; b]) = Err e).
Proof.
  intros Hall. destruct (Hall 0%Q 100%Q) as [e He].
  - left. apply Qle_refl.
  - discriminate He.
Qed.

Lemma C3_unknown_name_witness :
  spec_is_preset (F:=Q) (VStr "B5") = false /\
  spec_is_pair (F:=Q) (VStr "B5") = false /\
  convert_images_to_pdfs sample_env "in" "out" (VStr "B5") 300 []
    = ([], Err unsupported_page_size).
Proof.
  split; [reflexivity|]. split; [reflexivity|].
  apply (C3_unresolved_page_size_touches_nothing
           sample_env "in" "out" (VStr "B5") 300 []); reflexivity.
Defined.

(** ** The geometry *)

Section GeometryFacts.
Context {F : Type} `{PyNum F}.

Lemma py_div_two (a : F) : py_div a (of_Z 2) = Ok (fdiv a (of_Z 2)).
Proof. unfold py_div. now rewrite two_not_zero. Qed.

Lemma py_div_ok (a b : F) : is_zero b = false -> py_div a b = Ok (fdiv a b).
Proof. unfold py_div. now intros ->. Qed.

(** [fit] by cases, with the divisions written out. *)
Lemma fit_cases (pw ph r : F) :
  fit pw ph r =
    if is_zero ph then Err ZeroDivisionError
    else if fgt (fdiv pw ph) r then
      Ok (Layout pw ph (fmul ph r) ph
            (fdiv (fsub pw (fmul ph r)) (of_Z 2)) (fdiv (fsub ph ph) (of_Z 2)))
    else if is_zero r then Err ZeroDivisionError
    else
      Ok (Layout pw ph pw (fdiv pw r)
            (fdiv (fsub pw pw) (of_Z 2)) (fdiv (fsub ph (fdiv pw r)) (of_Z 2))).
Proof.
  unfold fit, py_div. rewrite two_not_zero.
  destruct (is_zero ph); [reflexivity|]. cbn [mbind result_bind].
  destruct (fgt (fdiv pw ph) r); [reflexivity|].
  destruct (is_zero r); reflexivity.
Qed.

(** C5: when the ratio of the page is greater than the ratio of the image
    the display height is the page height and the display width is the page
    height times the ratio; otherwise, so also when the two ratios are the
    same, the display width is the page width and the display height is the
    page width divided by the ratio; in both cases the position is the
    centred one. *)
Theorem C5_fit_height_or_width_bound (pw ph r : F) :
  is_zero ph = false ->
  (fgt (fdiv pw ph) r = true ->
     exists g, fit pw ph r = Ok g /\
       pdf_page_width g = pw /\ pdf_page_height g = ph /\
       img_height g = ph /\ img_width g = fmul ph r /\ centred g) /\
  (fgt (fdiv pw ph) r = false -> is_zero r = false ->
     exists g, fit pw ph r = Ok g /\
       pdf_page_width g = pw /\ pdf_page_height g = ph /\
       img_width g = pw /\ img_height g = fdiv pw r /\ centred g) /\
  (fdiv pw ph = r -> fgt (fdiv pw ph) r = false).
Proof.
  intros Hph. rewrite fit_cases, Hph. split; [|split].
  - intros ->. eexists. split; [reflexivity|]. unfold centred. cbn.
    repeat split.
  - intros -> ->. eexists. split; [reflexivity|]. unfold centred. cbn.
    repeat split.
  - intros ->. apply fgt_irrefl.
Qed.

End GeometryFacts.

(** ** Comparisons in exact arithmetic *)

Lemma is_zero_Q_pos (a : Q) : (0 < a)%Q -> is_zero a = false.
Proof.
  intros Ha. cbn. destruct (Qeq_bool a 0) eqn:E; [|reflexivity].
  apply Qeq_bool_iff in E. rewrite E in Ha. now apply Qlt_irrefl in Ha.
Qed.

Lemma fgt_Q_true (a b : Q) : fgt a b = true <-> (b < a)%Q.
Proof.
  cbn. rewrite negb_true_iff, <- not_true_iff_false, Qle_bool_iff.
  split; [apply Qnot_le_lt | apply Qlt_not_le].
Qed.

Lemma Qhalf (a : Q) : (a / inject_Z 2 = a * (1 # 2))%Q.
Proof. reflexivity. Qed.

(** ** The inscribed placement, in the arithmetic of floats *)

Section FloatGeometry.
Local Open Scope Q_scope.

Lemma nearest_even_bounds (y : Q) :
  y - (1 # 2) <= inject_Z (nearest_even y) /\ inject_Z (nearest_even y) <= y + (1 # 2).
Proof.
  unfold nearest_even.
  pose proof (Qfloor_le y) as Hlo. pose proof (Qlt_floor y) as Hhi.
  rewrite inject_Z_plus in Hhi.
  set (f := Qfloor y) in *. clearbody f.
  change (inject_Z 1) with 1 in Hhi.
  destruct (Qcompare_spec (y - inject_Z f) (1 # 2)) as [He|Hl|Hg].
  - destruct (Z.even f); rewrite ?inject_Z_plus; change (inject_Z 1) with 1; split; lra.
  - split; lra.
  - rewrite inject_Z_plus. change (inject_Z 1) with 1. split; lra.
Qed.

Lemma two_power_pos (e : Z) : 0 < 2 ^ e.
Proof. apply Qpower_0_lt. reflexivity. Qed.

(** The scaled significand is at least [2^52]. *)
Lemma exponent_lower (q : Q) : 0 < q -> 2 ^ (exponent q + 52) <= q.
Proof.
  intros Hq. unfold exponent.
  set (a := Z.log2 (Qnum q)). set (b := Z.log2 (Zpos (Qden q))).
  destruct (Qle_bool (2 ^ (a - b)) q) eqn:Hc.
  - apply Qle_bool_iff in Hc. now replace (a - b - 52 + 52)%Z with (a - b)%Z by lia.
  - replace (a - b - 53 + 52)%Z with (a - (b + 1))%Z by lia.
    assert (Hn : (0 < Qnum q)%Z). { destruct q as [n d]. unfold Qlt in Hq. cbn in *. lia. }
    assert (Ha : (0 <= a)%Z) by apply Z.log2_nonneg.
    assert (Hb : (0 <= b)%Z) by apply Z.log2_nonneg.
    destruct (Z.log2_spec (Qnum q) Hn) as [Hlo _]. fold a in Hlo.
    destruct (Z.log2_spec (Zpos (Qden q)) (Pos2Z.is_pos _)) as [_ Hhi].
    fold b in Hhi. replace (Z.succ b) with (b + 1)%Z in Hhi by lia.
    rewrite Qpower_minus by discriminate.
    rewrite <- !(Zpower_Qpower 2) by lia.
    assert (HA : 0 < inject_Z (2 ^ a)). { rewrite (Zpower_Qpower 2) by lia. apply two_power_pos. }
    assert (HB : 0 < inject_Z (2 ^ (b + 1))). { rewrite (Zpower_Qpower 2) by lia. apply two_power_pos. }
    assert (HAN : inject_Z (2 ^ a) <= inject_Z (Qnum q)) by (rewrite <- Zle_Qle; exact Hlo).
    assert (HDB : inject_Z (Zpos (Qden q)) <= inject_Z (2 ^ (b + 1))) by (rewrite <- Zle_Qle; lia).
    assert (HD : 0 < inject_Z (Zpos (Qden q))) by reflexivity.
    assert (Hrepr : q == inject_Z (Qnum q) / inject_Z (Zpos (Qden q))) by (destruct q; apply Qmake_Qdiv).
    rewrite Hrepr at 1. clear Hrepr Hc Hq.
    set (A := inject_Z (2 ^ a)) in *. set (B := inject_Z (2 ^ (b + 1))) in *.
    set (N := inject_Z (Qnum q)) in *. set (D := inject_Z (Zpos (Qden q))) in *.
    clearbody A B N D.
    apply Qle_shift_div_r; [assumption|].
    assert (E : N / D * B == N * (B / D)) by (field; lra).
    rewrite E.
    assert (H1 : 1 <= B / D) by (apply Qle_shift_div_l; lra).
    nra.
Qed.

(** The scaled significand is below [2^53]. *)
Lemma exponent_upper (q : Q) : 0 < q -> q < 2 ^ (exponent q + 53).
Proof.
  intros Hq. unfold exponent.
  set (a := Z.log2 (Qnum q)). set (b := Z.log2 (Zpos (Qden q))).
  destruct (Qle_bool (2 ^ (a - b)) q) eqn:Hc.
  - replace (a - b - 52 + 53)%Z with (a + 1 - b)%Z by lia.
    assert (Hn : (0 < Qnum q)%Z). { destruct q as [n d]. unfold Qlt in Hq. cbn in *. lia. }
    assert (Ha : (0 <= a)%Z) by apply Z.log2_nonneg.
    assert (Hb : (0 <= b)%Z) by apply Z.log2_nonneg.
    destruct (Z.log2_spec (Qnum q) Hn) as [_ Hhi]. fold a in Hhi.
    replace (Z.succ a) with (a + 1)%Z in Hhi by lia.
    destruct (Z.log2_spec (Zpos (Qden q)) (Pos2Z.is_pos _)) as [Hlo _].
    fold b in Hlo.
    rewrite Qpower_minus by discriminate.
    rewrite <- !(Zpower_Qpower 2) by lia.
    assert (HA : 0 < inject_Z (2 ^ (a + 1))).
    { rewrite (Zpower_Qpower 2) by lia. apply two_power_pos. }
    assert (HB : 0 < inject_Z (2 ^ b)).
    { rewrite (Zpower_Qpower 2) by lia. apply two_power_pos. }
    assert (HNA : inject_Z (Qnum q) < inject_Z (2 ^ (a + 1))) by (rewrite <- Zlt_Qlt; exact Hhi).
    assert (HBD : inject_Z (2 ^ b) <= inject_Z (Zpos (Qden q))) by (rewrite <- Zle_Qle; exact Hlo).
    assert (Hrepr : q == inject_Z (Qnum q) / inject_Z (Zpos (Qden q)))
      by (destruct q; apply Qmake_Qdiv).
    rewrite Hrepr at 1. clear Hrepr Hc Hq.
    set (A := inject_Z (2 ^ (a + 1))) in *. set (B := inject_Z (2 ^ b)) in *.
    set (N := inject_Z (Qnum q)) in *. set (D := inject_Z (Zpos (Qden q))) in *.
    clearbody A B N D.
    apply Qlt_shift_div_r; [lra|].
    assert (E : A / B * D == A * (D / B)) by (field; lra).
    rewrite E.
    assert (H1 : 1 <= D / B) by (apply Qle_shift_div_l; lra).
    nra.
  - replace (a - b - 53 + 53)%Z with (a - b)%Z by lia.
    apply Qnot_le_lt. intros Hle. apply Qle_bool_iff in Hle. congruence.
Qed.

(** The rounding of a positive number is a significand of 53 bits, the
    nearest one, times a power of two. *)
Lemma round_pos_significand (q : Q) :
  0 < q ->
  let e := exponent q in
  let m := nearest_even (q / 2 ^ e) in
  (2 ^ 52 <= m <= 2 ^ 53)%Z /\
  round_pos q == inject_Z m * 2 ^ e /\
  inject_Z m * 2 ^ e - (1 # 2) * 2 ^ e <= q /\
  q <= inject_Z m * 2 ^ e + (1 # 2) * 2 ^ e.
Proof.
  intros Hq. cbv zeta.
  pose proof (exponent_lower q Hq) as Hlo. pose proof (exponent_upper q Hq) as Hhi.
  set (e := exponent q) in *.
  pose proof (two_power_pos e) as Hp.
  rewrite Qpower_plus in Hlo, Hhi by discriminate.
  assert (Hy : q / 2 ^ e * 2 ^ e == q) by (field; lra).
  destruct (nearest_even_bounds (q / 2 ^ e)) as [Hn1 Hn2].
  assert (Hy1 : 2 ^ 52 <= q / 2 ^ e) by (apply Qle_shift_div_l; lra).
  assert (Hy2 : q / 2 ^ e < 2 ^ 53) by (apply Qlt_shift_div_r; lra).
  split; [|split; [unfold round_pos; fold e; apply Qred_correct|]].
  - unfold nearest_even.
    pose proof (Qfloor_le (q / 2 ^ e)) as Hf1. pose proof (Qlt_floor (q / 2 ^ e)) as Hf2.
    assert (Hfl : (2 ^ 52 <= Qfloor (q / 2 ^ e) < 2 ^ 53)%Z).
    { split.
      - apply (Qfloor_resp_le (2 ^ 52)) in Hy1. exact Hy1.
      - rewrite Zlt_Qlt. eapply Qle_lt_trans; [exact Hf1|]. exact Hy2. }
    destruct (Qcompare _ _); [destruct (Z.even _)| |]; lia.
  - set (m := inject_Z (nearest_even (q / 2 ^ e))) in *.
    set (y := q / 2 ^ e) in *. set (s := 2 ^ e) in *. clearbody m y s.
    split; nra.
Qed.

(** A rounding moves a positive number by at most the unit roundoff,
    relatively. *)
Lemma round_pos_bounds (q : Q) :
  0 < q ->
  (1 - unit_roundoff) * q <= round_pos q /\ round_pos q <= (1 + unit_roundoff) * q.
Proof.
  intros Hq. unfold round_pos. rewrite Qred_correct.
  pose proof (exponent_lower q Hq) as He.
  set (e := exponent q) in *. clearbody e.
  pose proof (two_power_pos e) as Hp.
  rewrite Qpower_plus in He by discriminate.
  destruct (nearest_even_bounds (q / 2 ^ e)) as [Hlo Hhi].
  set (m := inject_Z (nearest_even (q / 2 ^ e))) in *. clearbody m.
  assert (Hy : q / 2 ^ e * 2 ^ e == q) by (field; lra).
  set (y := q / 2 ^ e) in *. clearbody y.
  set (s := 2 ^ e) in *. clearbody s.
  change (2 ^ 52) with (4503599627370496 # 1) in He.
  unfold unit_roundoff. change (2 ^ 53)%positive with 9007199254740992%positive.
  split; nra.
Qed.

Lemma round53_nonneg (q : Q) :
  0 <= q ->
  (1 - unit_roundoff) * q <= round53 q /\ round53 q <= (1 + unit_roundoff) * q.
Proof.
  intros Hq. unfold round53.
  destruct (Qcompare_spec q 0) as [H0|Hl|Hg].
  - rewrite H0. split; lra.
  - lra.
  - now apply round_pos_bounds.
Qed.

Lemma round53_nonpos (q : Q) :
  q <= 0 ->
  (1 + unit_roundoff) * q <= round53 q /\ round53 q <= (1 - unit_roundoff) * q.
Proof.
  intros Hq. unfold round53.
  destruct (Qcompare_spec q 0) as [H0|Hl|Hg].
  - rewrite H0. split; lra.
  - assert (Hn : 0 < - q) by lra.
    destruct (round_pos_bounds (- q) Hn) as [Hlo Hhi].
    set (r := round_pos (- q)) in *. clearbody r. split; lra.
  - lra.
Qed.

Lemma round53_zero (q : Q) : q == 0 -> round53 q = 0.
Proof.
  intros H0. unfold round53.
  destruct (Qcompare_spec q 0) as [_|Hl|Hg]; [reflexivity | lra | lra].
Qed.

Lemma unit_roundoff_small : 0 < unit_roundoff /\ unit_roundoff <= 1 # 1000.
Proof. split; [reflexivity | discriminate]. Qed.

Lemma is_zero_float_pos (a : pyfloat) : 0 < fval a -> is_zero a = false.
Proof.
  intros Ha. cbn. destruct (Qeq_bool (fval a) 0) eqn:E; [|reflexivity].
  apply Qeq_bool_iff in E. rewrite E in Ha. now apply Qlt_irrefl in Ha.
Qed.

Lemma fgt_float_true (a b : pyfloat) : fgt a b = true <-> fval b < fval a.
Proof.
  cbn. rewrite negb_true_iff, <- not_true_iff_false, Qle_bool_iff.
  split; [apply Qnot_le_lt | apply Qlt_not_le].
Qed.

Lemma fgt_float_false (a b : pyfloat) : fgt a b = false <-> fval a <= fval b.
Proof. cbn. now rewrite negb_false_iff, Qle_bool_iff. Qed.

(** Two roundings in a row, of a number halved in between. *)
Lemma round53_half_nonneg (d : Q) :
  0 <= d ->
  0 <= round53 (round53 d * (1 # 2)) /\
  round53 (round53 d * (1 # 2))
    <= (1 + unit_roundoff) * (1 + unit_roundoff) * d * (1 # 2).
Proof.
  intros Hd. destruct unit_roundoff_small as [H0 H1].
  destruct (round53_nonneg _ Hd) as [Hlo Hhi].
  set (s := round53 d) in *. clearbody s.
  assert (Hs : 0 <= s * (1 # 2)).
  { revert H0 H1 Hlo. generalize unit_roundoff. intros u H0 H1 Hlo. nra. }
  destruct (round53_nonneg _ Hs) as [Hlo' Hhi'].
  set (x := round53 (s * (1 # 2))) in *. clearbody x.
  set (u := unit_roundoff) in *. clearbody u.
  assert (H2 : 0 <= (1 - u) * (s * (1 # 2))) by nra.
  assert (H3 : (1 + u) * (s * (1 # 2)) <= (1 + u) * ((1 + u) * d * (1 # 2))) by nra.
  split; nra.
Qed.

Lemma round53_half_nonpos (d : Q) :
  d <= 0 ->
  (1 + unit_roundoff) * (1 + unit_roundoff) * d * (1 # 2)
    <= round53 (round53 d * (1 # 2)) /\
  round53 (round53 d * (1 # 2)) <= 0.
Proof.
  intros Hd. destruct unit_roundoff_small as [H0 H1].
  destruct (round53_nonpos _ Hd) as [Hlo Hhi].
  set (s := round53 d) in *. clearbody s.
  assert (Hs : s * (1 # 2) <= 0).
  { revert H0 H1 Hhi. generalize unit_roundoff. intros u H0 H1 Hhi. nra. }
  destruct (round53_nonpos _ Hs) as [Hlo' Hhi'].
  set (x := round53 (s * (1 # 2))) in *. clearbody x.
  set (u := unit_roundoff) in *. clearbody u.
  assert (H2 : (1 - u) * (s * (1 # 2)) <= 0) by nra.
  assert (H3 : (1 + u) * ((1 + u) * d * (1 # 2)) <= (1 + u) * (s * (1 # 2))) by nra.
  split; nra.
Qed.

(** The centred position of a side [b] on a side [a] (lines 76-77) is the
    float [((a - b) / 2)], where the difference and the half are rounded. *)
Lemma centre_float (a b : pyfloat) :
  fval (fdiv (fsub a b) (of_Z 2)) = round53 (round53 (fval a - fval b) * (1 # 2)).
Proof. reflexivity. Qed.

Lemma centre_same (a : pyfloat) : fval (fdiv (fsub a a) (of_Z 2)) = 0.
Proof.
  rewrite centre_float.
  rewrite (round53_zero (fval a - fval a)) by ring.
  now apply round53_zero.
Qed.

Lemma tolerance_roundoff : tolerance == 4 * unit_roundoff.
Proof. reflexivity. Qed.

(** The terms of second and third order in the roundoff are small. *)
Lemma roundoff_terms (u x : Q) :
  0 < u -> u <= 1 # 1000 -> 0 <= x ->
  0 <= u * x /\ u * x <= (1 # 1000) * x /\
  0 <= u * (u * x) /\ u * (u * x) <= (1 # 1000) * (u * x).
Proof.
  intros Hu0 Hu1 Hx.
  assert (H1 : 0 <= u * x) by nra.
  assert (H2 : u * x <= (1 # 1000) * x) by nra.
  set (k := u * x) in *. clearbody k.
  repeat split; try assumption; nra.
Qed.

Lemma scale_le (c a b : Q) : 0 <= c -> a <= b -> c * a <= c * b.
Proof. intros Hc Hab. nra. Qed.

(** The arithmetic of the branch bound by the height (lines 68-69). *)
Lemma height_bound_arith (u pw ph r R q dw : Q) :
  0 < u -> u <= 1 # 1000 ->
  0 < pw -> 0 < ph -> 0 < R ->
  (1 - u) * R <= r -> r <= (1 + u) * R ->
  q <= (1 + u) * (pw / ph) -> r < q ->
  (1 - u) * (ph * r) <= dw -> dw <= (1 + u) * (ph * r) ->
  0 < dw /\ dw <= (1 + 3 * u) * pw /\
  (1 - 4 * u) * R <= dw / ph /\ dw / ph <= (1 + 4 * u) * R.
Proof.
  intros Hu0 Hu1 Hpw Hph HR Hr1 Hr2 Hq Hrq Hd1 Hd2.
  assert (HP : pw / ph * ph == pw) by (field; lra).
  set (P := pw / ph) in *. clearbody P.
  assert (Hr0 : 0 < r) by (clear - Hu0 Hu1 HR Hr1; nra).
  assert (Hm0 : 0 < ph * r) by (clear - Hph Hr0; nra).
  assert (Hm : ph * r < (1 + u) * pw) by (clear - Hph Hq Hrq HP; nra).
  split; [clear - Hu0 Hu1 Hm0 Hd1; nra|].
  split.
  { assert (H1 : (1 + u) * (ph * r) <= (1 + u) * ((1 + u) * pw)) by (clear - Hu0 Hm; nra).
    destruct (roundoff_terms u pw) as (? & ? & ? & ?); [assumption | assumption | lra |].
    lra. }
  assert (HRp : 0 < R * ph) by (clear - HR Hph; nra).
  destruct (roundoff_terms u (R * ph)) as (? & ? & ? & ?); [assumption | assumption | lra |].
  split.
  - apply Qle_shift_div_l; [assumption|].
    assert (H5 : (1 - u) * ((1 - u) * (R * ph)) <= (1 - u) * (ph * r)).
    { apply scale_le; [lra|]. clear - Hph Hr1. nra. }
    lra.
  - apply Qle_shift_div_r; [assumption|].
    assert (H5 : (1 + u) * (ph * r) <= (1 + u) * ((1 + u) * (R * ph))).
    { apply scale_le; [lra|]. clear - Hph Hr2. nra. }
    lra.
Qed.

(** The arithmetic of the branch bound by the width (lines 72-73). *)
Lemma width_bound_arith (u pw ph r R q dh : Q) :
  0 < u -> u <= 1 # 1000 ->
  0 < pw -> 0 < ph -> 0 < R ->
  (1 - u) * R <= r -> r <= (1 + u) * R ->
  (1 - u) * (pw / ph) <= q -> q <= r ->
  (1 - u) * (pw / r) <= dh -> dh <= (1 + u) * (pw / r) ->
  0 < dh /\ dh <= (1 + 3 * u) * ph /\
  (1 - 4 * u) * R <= pw / dh /\ pw / dh <= (1 + 4 * u) * R.
Proof.
  intros Hu0 Hu1 Hpw Hph HR Hr1 Hr2 Hq Hrq Hd1 Hd2.
  assert (Hr0 : 0 < r) by (clear - Hu0 Hu1 HR Hr1; nra).
  assert (HP : pw / ph * ph == pw) by (field; lra).
  assert (HD : pw / r * r == pw) by (field; lra).
  assert (HD0 : 0 < pw / r) by (apply Qlt_shift_div_l; lra).
  set (P := pw / ph) in *. set (D := pw / r) in *. clearbody P D.
  assert (H1 : (1 - u) * pw <= r * ph) by (clear - Hph Hq Hrq HP; nra).
  assert (H2 : (1 - u) * D <= ph).
  { apply (Qmult_le_r _ _ r Hr0). clear - H1 HD. nra. }
  assert (Hdh0 : 0 < dh) by (clear - Hu0 Hu1 HD0 Hd1; nra).
  assert (Hdh : dh <= (1 + 3 * u) * ph).
  { assert (H3 : dh * (1 - u) <= (1 + u) * ph) by (clear - Hu0 Hu1 H2 Hd2; nra).
    destruct (roundoff_terms u ph) as (? & ? & ? & ?); [assumption | assumption | lra |].
    apply (Qmult_le_r _ _ (1 - u)); [lra | lra]. }
  split; [assumption|]. split; [assumption|].
  assert (HDR : 0 < D * R) by (clear - HD0 HR; nra).
  destruct (roundoff_terms u (D * R)) as (? & ? & ? & ?); [assumption | assumption | lra |].
  split.
  - apply Qle_shift_div_l; [assumption|].
    assert (H6 : (1 - 4 * u) * (R * dh) <= (1 - 4 * u) * ((1 + u) * (D * R))).
    { apply scale_le; [lra|]. clear - HR Hd2. nra. }
    assert (H5 : (1 - u) * (D * R) <= D * r) by (clear - HD0 Hr1; nra).
    lra.
  - apply Qle_shift_div_r; [assumption|].
    assert (H6 : (1 + 4 * u) * ((1 - u) * (D * R)) <= (1 + 4 * u) * (R * dh)).
    { apply scale_le; [lra|]. clear - HR Hd1. nra. }
    assert (H5 : D * r <= (1 + u) * (D * R)) by (clear - HD0 Hr2; nra).
    lra.
Qed.

(** The centred position of a side [d] on a page side [p] that it passes by
    at most [3 u p]: within the tolerance of the page side. *)
Lemma centre_arith (u p d x : Q) :
  0 < u -> u <= 1 # 1000 ->
  0 < p -> 0 < d -> d <= (1 + 3 * u) * p ->
  (0 <= p - d -> 0 <= x /\ x <= (1 + u) * (1 + u) * (p - d) * (1 # 2)) ->
  (p - d <= 0 -> (1 + u) * (1 + u) * (p - d) * (1 # 2) <= x /\ x <= 0) ->
  - (4 * u) * p <= x /\ x + d <= (1 + 4 * u) * p.
Proof.
  intros Hu0 Hu1 Hp Hd0 Hd Hpos Hneg.
  destruct (roundoff_terms u p) as (? & ? & ? & ?); [assumption | assumption | lra |].
  destruct (Qlt_le_dec (p - d) 0) as [Hlt|Hge].
  - destruct Hneg as [Hlo Hhi]; [lra|].
    assert (H7 : - (3 * u) * p <= p - d) by lra.
    assert (H8 : (1 + u) * ((1 + u) * (- (3 * u) * p))
                 <= (1 + u) * ((1 + u) * (p - d))).
    { apply scale_le; [lra|]. apply scale_le; [lra | exact H7]. }
    destruct (roundoff_terms u (u * p)) as (? & ? & ? & ?); [assumption | assumption | lra |].
    split; lra.
  - destruct Hpos as [Hlo Hhi]; [assumption|].
    destruct (roundoff_terms u (p - d)) as (? & ? & ? & ?); [assumption | assumption | lra |].
    destruct (roundoff_terms u d) as (? & ? & ? & ?); [assumption | assumption | lra |].
    split; lra.
Qed.

(** A rounded number in the middle of the range is normal. *)
Lemma round53_normal (x : Q) :
  2 ^ (-600) <= x -> x <= 2 ^ 600 -> normal (round53 x).
Proof.
  intros Hlo Hhi.
  assert (H1 : 2 ^ (-1022) <= (1 # 2) * 2 ^ (-600)) by (apply Qle_bool_imp_le; reflexivity).
  assert (H2 : 2 * 2 ^ 600 < 2 ^ 1024) by reflexivity.
  assert (H3 : 0 < 2 ^ (-600)) by reflexivity.
  set (a := 2 ^ (-600)) in *. set (b := 2 ^ 600) in *.
  set (c := 2 ^ (-1022)) in *. set (d := 2 ^ 1024) in *.
  destruct (round53_nonneg x) as [Hlo' Hhi']; [clearbody a b c d; lra|].
  destruct unit_roundoff_small as [Hu0 Hu1].
  unfold normal. fold c d.
  set (y := round53 x) in *. set (u := unit_roundoff) in *.
  clearbody a b c d y u.
  split; nra.
Qed.

Lemma moderate_normal (x : Q) : moderate x -> normal x.
Proof.
  intros [Hlo Hhi].
  assert (H1 : 2 ^ (-1022) <= 2 ^ (-256)) by (apply Qle_bool_imp_le; reflexivity).
  assert (H2 : 2 ^ 256 < 2 ^ 1024) by reflexivity.
  unfold normal.
  set (a := 2 ^ (-256)) in *. set (b := 2 ^ 256) in *.
  set (c := 2 ^ (-1022)) in *. set (d := 2 ^ 1024) in *.
  clearbody a b c d. split; lra.
Qed.

Lemma moderate_pos (x : Q) : moderate x -> 0 < x.
Proof.
  intros [Hlo _]. assert (H : 0 < 2 ^ (-256)) by reflexivity.
  set (a := 2 ^ (-256)) in *. clearbody a. lra.
Qed.

(** Products and quotients of moderate numbers, one of them rounded, are
    in the middle of the range. *)
Lemma moderate_mul (a b R : Q) :
  moderate a -> moderate R ->
  (1 - unit_roundoff) * R <= b -> b <= (1 + unit_roundoff) * R ->
  2 ^ (-600) <= a * b /\ a * b <= 2 ^ 600.
Proof.
  intros [Ha1 Ha2] [HR1 HR2] Hb1 Hb2.
  destruct unit_roundoff_small as [Hu0 Hu1].
  assert (H1 : 2 ^ (-600) <= 2 ^ (-256) * ((1 # 2) * 2 ^ (-256)))
    by (apply Qle_bool_imp_le; reflexivity).
  assert (H2 : 2 ^ 256 * (2 * 2 ^ 256) <= 2 ^ 600) by (apply Qle_bool_imp_le; reflexivity).
  assert (H3 : 0 < 2 ^ (-256)) by reflexivity.
  assert (H4 : 0 < 2 ^ 256) by reflexivity.
  set (A := 2 ^ (-256)) in *. set (B := 2 ^ 256) in *.
  set (L := 2 ^ (-600)) in *. set (U := 2 ^ 600) in *.
  set (u := unit_roundoff) in *. clearbody A B L U u.
  assert (H5 : (1 # 2) * A <= b) by (clear - Hu0 Hu1 HR1 Hb1 H3; nra).
  assert (H6 : b <= 2 * B) by (clear - Hu0 Hu1 HR2 Hb2 H4; nra).
  assert (H7 : A * ((1 # 2) * A) <= a * b) by (clear - Ha1 H5 H3; nra).
  assert (H8 : a * b <= B * (2 * B)) by (clear - Ha1 Ha2 H3 H5 H6 H4; nra).
  split; lra.
Qed.

Lemma moderate_div (a b R : Q) :
  moderate a -> moderate R ->
  (1 - unit_roundoff) * R <= b -> b <= (1 + unit_roundoff) * R ->
  2 ^ (-600) <= a / b /\ a / b <= 2 ^ 600.
Proof.
  intros [Ha1 Ha2] [HR1 HR2] Hb1 Hb2.
  destruct unit_roundoff_small as [Hu0 Hu1].
  assert (H1 : 2 ^ (-600) * (2 * 2 ^ 256) <= 2 ^ (-256))
    by (apply Qle_bool_imp_le; reflexivity).
  assert (H2 : 2 ^ 256 <= 2 ^ 600 * ((1 # 2) * 2 ^ (-256)))
    by (apply Qle_bool_imp_le; reflexivity).
  assert (H3 : 0 < 2 ^ (-256)) by reflexivity.
  assert (H4 : 0 < 2 ^ 256) by reflexivity.
  assert (H0 : 0 < 2 ^ (-600)) by reflexivity.
  assert (H9 : 0 < 2 ^ 600) by reflexivity.
  set (A := 2 ^ (-256)) in *. set (B := 2 ^ 256) in *.
  set (L := 2 ^ (-600)) in *. set (U := 2 ^ 600) in *.
  set (u := unit_roundoff) in *. clearbody A B L U u.
  assert (H5 : (1 # 2) * A <= b) by (clear - Hu0 Hu1 HR1 Hb1 H3; nra).
  assert (H6 : b <= 2 * B) by (clear - Hu0 Hu1 HR2 Hb2 H4; nra).
  assert (Hb : 0 < b) by lra.
  split.
  - apply Qle_shift_div_l; [assumption|].
    assert (H7 : L * b <= L * (2 * B)) by (apply scale_le; lra). lra.
  - apply Qle_shift_div_r; [assumption|].
    assert (H7 : U * ((1 # 2) * A) <= U * b) by (apply scale_le; lra). lra.
Qed.

(** The ratio of two pixel sizes is moderate. *)
Lemma moderate_ratio (w h : Z) :
  (0 < w <= 2 ^ 256)%Z -> (0 < h <= 2 ^ 256)%Z ->
  moderate (inject_Z w / inject_Z h).
Proof.
  intros [Hw0 Hw1] [Hh0 Hh1].
  assert (HW0 : 1 <= inject_Z w) by (change 1 with (inject_Z 1); rewrite <- Zle_Qle; lia).
  assert (HH0 : 1 <= inject_Z h) by (change 1 with (inject_Z 1); rewrite <- Zle_Qle; lia).
  assert (HW1 : inject_Z w <= 2 ^ 256).
  { change (2 ^ 256) with (inject_Z (2 ^ 256)). now rewrite <- Zle_Qle. }
  assert (HH1 : inject_Z h <= 2 ^ 256).
  { change (2 ^ 256) with (inject_Z (2 ^ 256)). now rewrite <- Zle_Qle. }
  assert (HAB : 2 ^ (-256) * 2 ^ 256 == 1) by reflexivity.
  assert (H3 : 0 < 2 ^ (-256)) by reflexivity.
  unfold moderate.
  set (A := 2 ^ (-256)) in *. set (B := 2 ^ 256) in *.
  set (W := inject_Z w) in *. set (H := inject_Z h) in *.
  clearbody A B W H.
  split.
  - apply Qle_shift_div_l; [lra|].
    assert (H7 : A * H <= A * B) by (apply scale_le; lra). lra.
  - apply Qle_shift_div_r; [lra|].
    assert (H7 : B * 1 <= B * H) by (apply scale_le; lra). lra.
Qed.

(** The layout of a ratio [r] that is the rounding of [R]. *)
Lemma fit_float_inscribed (pw ph r : pyfloat) (R : Q) :
  moderate (fval pw) -> moderate (fval ph) -> moderate R ->
  (1 - unit_roundoff) * R <= fval r -> fval r <= (1 + unit_roundoff) * R ->
  exists g, fit pw ph r = Ok g /\
    pdf_page_width g = pw /\ pdf_page_height g = ph /\
    (img_height g = ph /\ fval (y_pos g) = 0 \/
     img_width g = pw /\ fval (x_pos g) = 0) /\
    - tolerance * fval pw <= fval (x_pos g) /\
    - tolerance * fval ph <= fval (y_pos g) /\
    fval (x_pos g) + fval (img_width g) <= (1 + tolerance) * fval pw /\
    fval (y_pos g) + fval (img_height g) <= (1 + tolerance) * fval ph /\
    0 < fval (img_width g) /\ 0 < fval (img_height g) /\
    (1 - tolerance) * R <= fval (img_width g) / fval (img_height g) /\
    fval (img_width g) / fval (img_height g) <= (1 + tolerance) * R /\
    normal (fval (img_width g)) /\ normal (fval (img_height g)).
Proof.
  intros Mpw Mph MR Hr1 Hr2.
  pose proof (moderate_pos _ Mpw) as Hpw.
  pose proof (moderate_pos _ Mph) as Hph.
  pose proof (moderate_pos _ MR) as HR.
  destruct unit_roundoff_small as [Hu0 Hu1].
  assert (Hr0 : 0 < fval r).
  { revert Hu0 Hu1 Hr1. generalize unit_roundoff. intros u Hu0 Hu1 Hr1. nra. }
  assert (Ht0 : 0 < tolerance) by reflexivity.
  rewrite fit_cases, (is_zero_float_pos ph Hph).
  assert (Hq : 0 <= fval pw / fval ph) by (apply Qle_shift_div_l; lra).
  destruct (round53_nonneg _ Hq) as [Hq1 Hq2].
  destruct (fgt (fdiv pw ph) r) eqn:Hcmp.
  - apply fgt_float_true in Hcmp. cbn [fdiv PyNum_float fval] in Hcmp.
    eexists. split; [reflexivity|].
    cbn [pdf_page_width pdf_page_height img_width img_height x_pos y_pos].
    rewrite centre_same, centre_float.
    cbn [fmul PyNum_float fval].
    assert (Hm : 0 <= fval ph * fval r) by nra.
    destruct (round53_nonneg _ Hm) as [Hd1 Hd2].
    destruct (moderate_mul _ _ _ Mph MR Hr1 Hr2) as [Hn1 Hn2].
    pose proof (round53_normal _ Hn1 Hn2) as Hnormal.
    set (dw := round53 (fval ph * fval r)) in *.
    destruct (height_bound_arith unit_roundoff (fval pw) (fval ph) (fval r) R
                (round53 (fval pw / fval ph)) dw)
      as (Hdw0 & Hdw & Hratio1 & Hratio2); try assumption.
    destruct (centre_arith unit_roundoff (fval pw) dw
                (round53 (round53 (fval pw - dw) * (1 # 2))))
      as [Hx1 Hx2]; try assumption;
      [apply round53_half_nonneg | apply round53_half_nonpos |].
    rewrite tolerance_roundoff.
    split; [reflexivity|]. split; [reflexivity|].
    split; [left; split; reflexivity|].
    split; [exact Hx1|].
    split; [rewrite <- tolerance_roundoff; nra|].
    split; [exact Hx2|].
    split; [rewrite <- tolerance_roundoff; nra|].
    split; [exact Hdw0|]. split; [exact Hph|].
    split; [exact Hratio1|]. split; [exact Hratio2|].
    split; [exact Hnormal | now apply moderate_normal].
  - apply fgt_float_false in Hcmp. cbn [fdiv PyNum_float fval] in Hcmp.
    rewrite (is_zero_float_pos r Hr0).
    eexists. split; [reflexivity|].
    cbn [pdf_page_width pdf_page_height img_width img_height x_pos y_pos].
    rewrite centre_same, centre_float.
    cbn [fdiv PyNum_float fval].
    assert (Hm : 0 <= fval pw / fval r) by (apply Qle_shift_div_l; lra).
    destruct (round53_nonneg _ Hm) as [Hd1 Hd2].
    destruct (moderate_div _ _ _ Mpw MR Hr1 Hr2) as [Hn1 Hn2].
    pose proof (round53_normal _ Hn1 Hn2) as Hnormal.
    set (dh := round53 (fval pw / fval r)) in *.
    destruct (width_bound_arith unit_roundoff (fval pw) (fval ph) (fval r) R
                (round53 (fval pw / fval ph)) dh)
      as (Hdh0 & Hdh & Hratio1 & Hratio2); try assumption.
    destruct (centre_arith unit_roundoff (fval ph) dh
                (round53 (round53 (fval ph - dh) * (1 # 2))))
      as [Hy1 Hy2]; try assumption;
      [apply round53_half_nonneg | apply round53_half_nonpos |].
    rewrite tolerance_roundoff.
    split; [reflexivity|]. split; [reflexivity|].
    split; [right; split; reflexivity|].
    split; [rewrite <- tolerance_roundoff; nra|].
    split; [exact Hy1|].
    split; [rewrite <- tolerance_roundoff; nra|].
    split; [exact Hy2|].
    split; [exact Hpw|]. split; [exact Hdh0|].
    split; [exact Hratio1|]. split; [exact Hratio2|].
    split; [now apply moderate_normal | exact Hnormal].
Qed.

Lemma moderate_middle (x : Q) : moderate x -> 2 ^ (-600) <= x /\ x <= 2 ^ 600.
Proof.
  intros [Hlo Hhi].
  assert (H1 : 2 ^ (-600) <= 2 ^ (-256)) by (apply Qle_bool_imp_le; reflexivity).
  assert (H2 : 2 ^ 256 <= 2 ^ 600) by (apply Qle_bool_imp_le; reflexivity).
  set (a := 2 ^ (-256)) in *. set (b := 2 ^ 256) in *.
  set (c := 2 ^ (-600)) in *. set (d := 2 ^ 600) in *.
  clearbody a b c d. split; lra.
Qed.




End FloatGeometry.

(** ** One file, the loop, the call *)

Lemma messages_app {F} (t1 t2 : trace F) :
  messages (t1 ++ t2) = messages t1 ++ messages t2.
Proof. apply omap_app. Qed.

Lemma reported_app {F} (t1 t2 : trace F) :
  reported (t1 ++ t2) = reported t1 ++ reported t2.
Proof. unfold reported. now rewrite messages_app, fmap_app. Qed.

(** The loop over a list in two parts: the second part runs from where the
    first part ends, unless the first part raised. *)
Lemma for_each_app {F A} (before after : list A) (body : A -> M F unit) t :
  for_each (before ++ after) body t =
    match for_each before body t with
    | (t1, Ok _) => for_each after body t1
    | (t1, Err e) => (t1, Err e)
    end.
Proof.
  revert t. induction before as [|x before IH]; intros t; [reflexivity|].
  cbn [app for_each]. unfold mbind, M_bind.
  destruct (body x t) as [t1 [[]|e]]; [apply IH | reflexivity].
Qed.

(** A loop that raises has raised in the turn of one entry, after the turns
    of the entries before it returned. *)
Lemma for_each_raises {F A} (l : list A) (body : A -> M F unit) t t' e :
  for_each l body t = (t', Err e) ->
  exists before x after t0,
    l = before ++ x :: after /\
    for_each before body t = (t0, Ok tt) /\
    body x t0 = (t', Err e).
Proof.
  revert t. induction l as [|x l IH]; intros t; [intros [=]|].
  cbn [for_each]. unfold mbind, M_bind.
  destruct (body x t) as [t1 [[]|e1]] eqn:Hx.
  - intros Hl. apply IH in Hl as (before & y & after & t0 & -> & Hb & Hy).
    exists (x :: before), y, after, t0. split; [reflexivity|].
    split; [|assumption]. cbn [for_each]. unfold mbind, M_bind. now rewrite Hx.
  - intros [= <- <-]. exists [], x, l, t. repeat split. assumption.
Qed.

Section FileFacts.
Context {F : Type} `{PyNum F}.
Variable E : env F.
Variables input_folder output_folder : string.
Variables page_width page_height : F.
Variable dpi : Z.

Lemma convert_one_ok filename t t' :
  convert_one E input_folder output_folder page_width page_height dpi filename t
    = (t', Ok tt) ->
  let input_path := path_join E input_folder filename in
  let pdf_name := fst (splitext E filename) +:+ ".pdf" in
  let output_path := path_join E output_folder pdf_name in
  let temp_path := path_join E output_folder "temp.jpg" in
  exists img g,
    image_open E t input_path = Ok img /\
    geometry page_width page_height (as_rgb img) = Ok g /\
    let done := open_calls input_path img
                ++ write_calls temp_path output_path dpi (as_rgb img) g in
    raises E (t ++ removelast done) (PdfOutput output_path "F") = None /\
    raises E (t ++ done) (Remove temp_path) = None /\
    t' = t ++ done
           ++ [Remove temp_path; Print (Converted filename pdf_name page_width page_height)].
Proof.
  intros Hrun. cbv zeta. run_cases Hrun.
  all: try discriminate Hrun.
  all: injection Hrun as <-.
  all: eexists _, _; split; [reflexivity|].
  all: unfold as_rgb, open_calls, write_calls.
  all: match goal with Hm : String.eqb _ _ = _ |- _ => rewrite Hm end; cbn [negb].
  all: split; [eassumption|].
  all: cbn [app removelast]; rewrite <- ?app_assoc in *; cbn [app] in *.
  all: repeat split; assumption.
Qed.

(** A turn of the loop on a name that is not supported makes no call. *)
Lemma process_file_unsupported filename t :
  is_supported filename = false ->
  process_file E input_folder output_folder page_width page_height dpi filename t
    = (t, Ok tt).
Proof. intros Hsup. unfold process_file. now rewrite Hsup. Qed.

(** A turn of the loop on a supported name is the body of the [try]; when
    the body raises, the handler hands the line of failure to [print], and
    the turn ends as that [print] does. *)
Lemma process_file_supported filename t :
  is_supported filename = true ->
  process_file E input_folder output_folder page_width page_height dpi filename t =
    match convert_one E input_folder output_folder page_width page_height dpi
            filename t with
    | (t1, Ok _) => (t1, Ok tt)
    | (t1, Err e) =>
        (t1 ++ [Print (Failed filename (str_exn e))],
         match raises E t1 (Print (Failed filename (str_exn e))) with
         | Some e' => Err e'
         | None => Ok tt
         end)
    end.
Proof.
  intros Hsup. unfold process_file, try_except. rewrite Hsup.
  destruct (convert_one _ _ _ _ _ _ _ t) as [t1 [[]|e]]; reflexivity.
Qed.

(** The only error that leaves a turn is the one of the [print] of the
    handler. *)
Lemma process_file_raises filename t t' e' :
  process_file E input_folder output_folder page_width page_height dpi filename t
    = (t', Err e') ->
  is_supported filename = true /\
  exists t1 e,
    convert_one E input_folder output_folder page_width page_height dpi filename t
      = (t1, Err e) /\
    raises E t1 (Print (Failed filename (str_exn e))) = Some e' /\
    t' = t1 ++ [Print (Failed filename (str_exn e))].
Proof.
  destruct (is_supported filename) eqn:Hsup.
  - rewrite (process_file_supported _ _ Hsup).
    destruct (convert_one _ _ _ _ _ _ _ t) as [t1 [[]|e]]; [intros [=]|].
    destruct (raises E t1 _) as [e1|] eqn:Hp; [|intros [=]].
    intros [= <- <-]. split; [reflexivity|]. now exists t1, e.
  - rewrite (process_file_unsupported _ _ Hsup). intros [=].
Qed.

(** The calls of a turn on a supported name: the file is opened first and
    once, and the last call hands a status line of the file to [print];
    unless that is the line of failure, the turn has returned and has
    written the PDF of the file. *)
Lemma process_file_turn filename t :
  is_supported filename = true ->
  exists evs m r,
    process_file E input_folder output_folder page_width page_height dpi filename t
      = (t ++ ImageOpen (path_join E input_folder filename) :: evs, r) /\
    opens evs = [] /\
    last evs = Some (Print m) /\
    msg_filename m = filename /\
    (is_failed m = true \/
     r = Ok tt /\
     pdf_outputs evs
       = [path_join E output_folder (fst (splitext E filename) +:+ ".pdf")]).
Proof.
  intros Hsup. rewrite (process_file_supported _ _ Hsup).
  destruct (convert_one _ _ _ _ _ _ _ t) as [t1 r1] eqn:Hrun.
  run_cases Hrun.
  all: injection Hrun as <- <-.
  all: rewrite <- ?app_assoc; cbn [app].
  all: eexists _, _, _; split; [reflexivity|].
  all: split; [reflexivity|]. all: split; [reflexivity|].
  all: split; [reflexivity|].
  all: first [left; reflexivity | right; split; reflexivity].
Qed.

(** With a console that takes every line of failure, a turn returns. *)
Lemma process_file_returns filename t :
  (forall t0 f text, raises E t0 (Print (Failed f text)) = None) ->
  exists evs,
    process_file E input_folder output_folder page_width page_height dpi filename t
      = (t ++ evs, Ok tt) /\
    forall t1,
      is_supported filename = true ->
      convert_one E input_folder output_folder page_width page_height dpi filename t
        = (t1, Ok tt) ->
      t1 = t ++ evs.
Proof.
  intros Hprint. destruct (is_supported filename) eqn:Hsup.
  - rewrite (process_file_supported _ _ Hsup).
    destruct (convert_one _ _ _ _ _ _ _ t) as [t1 [[]|e]] eqn:Hrun.
    + pose proof Hrun as Hok. apply convert_one_ok in Hok as (img & g & _ & _ & _ & _ & ->).
      eexists. split; [reflexivity|]. now intros t1 _ [= <-].
    + rewrite Hprint.
      assert (Hext : exists evs, t1 = t ++ evs).
      { run_cases Hrun. all: injection Hrun as <- _.
        all: rewrite <- ?app_assoc; eexists; reflexivity. }
      destruct Hext as [evs ->]. rewrite <- app_assoc.
      eexists. split; [reflexivity|]. intros t1 _ [=].
  - rewrite (process_file_unsupported _ _ Hsup). exists [].
    rewrite app_nil_r. split; [reflexivity|]. intros t1 [=].
Qed.

(** And so does the loop. *)
Lemma for_each_returns entries t :
  (forall t0 f text, raises E t0 (Print (Failed f text)) = None) ->
  exists evs,
    for_each entries
      (process_file E input_folder output_folder page_width page_height dpi) t
      = (t ++ evs, Ok tt).
Proof.
  intros Hprint. revert t. induction entries as [|filename entries IH]; intros t.
  - exists []. now rewrite app_nil_r.
  - destruct (process_file_returns filename t Hprint) as (evs1 & H1 & _).
    destruct (IH (t ++ evs1)) as (evs2 & H2).
    exists (evs1 ++ evs2).
    cbn [for_each]. unfold mbind, M_bind. now rewrite H1, H2, app_assoc.
Qed.

(** C6: when the body of the [try] raises for a supported file, the handler
    hands the line of failure, with the name of the file and the text of
    the error, to [print], and the turn ends as that [print] does; an error
    leaves a turn only when that [print] raises.  With a console that takes
    every line of failure: the turns of the entries before a file return,
    whatever failed in them, the turn of the file runs from there and
    returns, the loop goes on over the entries after it and returns; and
    when the conversion of the file returns at its turn, its PDF is
    written in the run. *)
Theorem C6_file_errors_are_caught before filename after t :
  let body := process_file E input_folder output_folder page_width page_height dpi in
  let convert :=
    convert_one E input_folder output_folder page_width page_height dpi in
  let failure := fun e => Print (Failed filename (str_exn e)) in
  let pdf :=
    PdfOutput (path_join E output_folder (fst (splitext E filename) +:+ ".pdf")) "F" in
  (forall t0 t1 e,
     is_supported filename = true ->
     convert filename t0 = (t1, Err e) ->
     body filename t0 =
       (t1 ++ [failure e],
        match raises E t1 (failure e) with Some e' => Err e' | None => Ok tt end)) /\
  (forall t0 t' e',
     body filename t0 = (t', Err e') ->
     is_supported filename = true /\
     exists t1 e,
       convert filename t0 = (t1, Err e) /\
       raises E t1 (failure e) = Some e' /\
       t' = t1 ++ [failure e]) /\
  ((forall t0 f text, raises E t0 (Print (Failed f text)) = None) ->
   exists evs1 evs2 evs3,
     for_each before body t = (t ++ evs1, Ok tt) /\
     body filename (t ++ evs1) = ((t ++ evs1) ++ evs2, Ok tt) /\
     for_each after body ((t ++ evs1) ++ evs2)
       = (((t ++ evs1) ++ evs2) ++ evs3, Ok tt) /\
     for_each (before ++ filename :: after) body t
       = (((t ++ evs1) ++ evs2) ++ evs3, Ok tt) /\
     (is_supported filename = true ->
      forall t1, convert filename (t ++ evs1) = (t1, Ok tt) ->
      exists pre post,
        evs2 = pre ++ pdf :: post /\
        raises E ((t ++ evs1) ++ pre) pdf = None)).
Proof.
  cbv zeta. split; [|split].
  - intros t0 t1 e Hsup Hrun. now rewrite (process_file_supported _ _ Hsup), Hrun.
  - intros t0 t' e'. apply process_file_raises.
  - intros Hprint.
    destruct (for_each_returns before t Hprint) as (evs1 & H1).
    destruct (process_file_returns filename (t ++ evs1) Hprint) as (evs2 & H2 & Hok).
    destruct (for_each_returns after ((t ++ evs1) ++ evs2) Hprint) as (evs3 & H3).
    exists evs1, evs2, evs3.
    split; [exact H1|]. split; [exact H2|]. split; [exact H3|].
    split.
    { rewrite for_each_app, H1. cbn [for_each]. unfold mbind, M_bind.
      now rewrite H2. }
    intros Hsup t1 Hrun. pose proof (Hok t1 Hsup Hrun) as Ht1.
    apply convert_one_ok in Hrun as (img & g & _ & _ & Hout & _ & Ht).
    rewrite Ht in Ht1. apply app_inv_head in Ht1. subst evs2.
    unfold open_calls, write_calls in *.
    destruct (negb (mode img =? "RGB")); cbn [app removelast] in *.
    all: eexists _, _; split; [|exact Hout]; reflexivity.
Qed.

(** C8: a conversion that returns has written exactly one PDF, to the path
    made of the output folder and the stem of the file name followed by
    [.pdf]; the temporary JPEG it saved was removed, the removal returned,
    and only then the line of success was printed. *)
Theorem C8_one_pdf_and_temp_removed filename t t' :
  convert_one E input_folder output_folder page_width page_height dpi filename t
    = (t', Ok tt) ->
  let pdf_name := fst (splitext E filename) +:+ ".pdf" in
  let output_path := path_join E output_folder pdf_name in
  let temp_path := path_join E output_folder "temp.jpg" in
  let success := Print (Converted filename pdf_name page_width page_height) in
  exists evs,
    t' = t ++ evs ++ [Remove temp_path; success] /\
    pdf_outputs (evs ++ [Remove temp_path; success]) = [output_path] /\
    (exists before, evs = before ++ [PdfOutput output_path "F"] /\
       raises E (t ++ before) (PdfOutput output_path "F") = None) /\
    (exists img, In (ImageSave img temp_path "JPEG" 95 (dpi, dpi)) evs) /\
    raises E (t ++ evs) (Remove temp_path) = None /\
    messages evs = [].
Proof.
  intros Hrun. apply convert_one_ok in Hrun.
  destruct Hrun as (img & g & _ & _ & Hout & Hrm & ->).
  cbv zeta. eexists. split; [reflexivity|].
  unfold open_calls, write_calls in *.
  destruct (negb (mode img =? "RGB")); cbn [app removelast] in *.
  all: split; [reflexivity|].
  all: split; [eexists; split; [|exact Hout]; reflexivity|].
  all: split; [eexists; cbn; auto|].
  all: split; [exact Hrm | reflexivity].
Qed.

End FileFacts.

(** The geometry reads the pixel size of the image only. *)
Lemma geometry_dims {F} `{PyNum F} (page_width page_height : F) (a b : image) :
  width a = width b -> height a = height b ->
  geometry page_width page_height a = geometry page_width page_height b.
Proof. unfold geometry. now intros -> ->. Qed.

Lemma as_rgb_dims (img : image) :
  width (as_rgb img) = width img /\ height (as_rgb img) = height img.
Proof. unfold as_rgb. destruct (negb _); split; reflexivity. Qed.

(** C9: two conversions under the same page size, of images with the same
    pixel size, in whatever worlds, folders and traces, compute the same
    layout and hand the PDF writer the same page format and the same
    placement. *)
Theorem C9_same_image_same_layout {F} `{PyNum F} (E1 E2 : env F)
    (in1 out1 in2 out2 : string) (page_size : pyval F) (dpi : Z)
    (pw1 ph1 pw2 ph2 : F) (f1 f2 : string) (t1 t2 t1' t2' : trace F)
    (img1 img2 : image) :
  resolve_page_size page_size = Ok (pw1, ph1) ->
  resolve_page_size page_size = Ok (pw2, ph2) ->
  image_open E1 t1 (path_join E1 in1 f1) = Ok img1 ->
  image_open E2 t2 (path_join E2 in2 f2) = Ok img2 ->
  width img1 = width img2 ->
  height img1 = height img2 ->
  convert_one E1 in1 out1 pw1 ph1 dpi f1 t1 = (t1', Ok tt) ->
  convert_one E2 in2 out2 pw2 ph2 dpi f2 t2 = (t2', Ok tt) ->
  exists evs1 evs2 g,
    t1' = t1 ++ evs1 /\ t2' = t2 ++ evs2 /\
    geometry pw1 ph1 img1 = Ok g /\
    geometry pw2 ph2 img2 = Ok g /\
    page_formats evs1 = [(pdf_page_width g, pdf_page_height g)] /\
    page_formats evs2 = [(pdf_page_width g, pdf_page_height g)] /\
    placements evs1 = [(x_pos g, y_pos g, img_width g, img_height g)] /\
    placements evs2 = [(x_pos g, y_pos g, img_width g, img_height g)].
Proof.
  intros Hr1 Hr2 Ho1 Ho2 Hw Hh Hc1 Hc2.
  rewrite Hr1 in Hr2. injection Hr2 as <- <-.
  apply convert_one_ok in Hc1. destruct Hc1 as (a1 & g1 & Ha1 & Hg1 & _ & _ & ->).
  apply convert_one_ok in Hc2. destruct Hc2 as (a2 & g2 & Ha2 & Hg2 & _ & _ & ->).
  rewrite Ho1 in Ha1. injection Ha1 as <-.
  rewrite Ho2 in Ha2. injection Ha2 as <-.
  destruct (as_rgb_dims img1) as [Hw1 Hh1].
  destruct (as_rgb_dims img2) as [Hw2 Hh2].
  rewrite (geometry_dims _ _ _ img1 Hw1 Hh1) in Hg1.
  rewrite (geometry_dims _ _ _ img1) in Hg2 by congruence.
  rewrite Hg1 in Hg2. injection Hg2 as <-.
  do 2 eexists. exists g1.
  split; [reflexivity|]. split; [reflexivity|].
  split; [assumption|].
  split; [now rewrite <- Hg1; apply geometry_dims|].
  unfold open_calls, write_calls.
  destruct (negb (mode img1 =? "RGB")), (negb (mode img2 =? "RGB"));
    repeat split.
Qed.

(** ** The calls of one turn *)

Section TurnCalls.
Context {F : Type} `{PyNum F}.
Variable E : env F.
Variables input_folder output_folder : string.
Variables page_width page_height : F.
Variable dpi : Z.

(** Whatever a conversion does and however it ends: it opens its own input
    path once, saves and removes at the temporary path only, writes a PDF
    to its own output path only, calls nothing on directories, and saves
    an image in mode RGB of the pixel size of the opened one. *)
Lemma convert_one_calls filename t t' r :
  convert_one E input_folder output_folder page_width page_height dpi filename t
    = (t', r) ->
  exists evs, t' = t ++ evs /\
    opens evs = [path_join E input_folder filename] /\
    Forall (eq (path_join E output_folder "temp.jpg")) (saves evs) /\
    Forall (eq (path_join E output_folder "temp.jpg")) (removes evs) /\
    Forall (eq (path_join E output_folder (fst (splitext E filename) +:+ ".pdf")))
      (pdf_outputs evs) /\
    dir_calls evs = [] /\
    (forall img, image_open E t (path_join E input_folder filename) = Ok img ->
       Forall (fun i => mode i = "RGB" /\ width i = width img /\ height i = height img)
         (saved_images evs)).
Proof.
  intros Hrun. run_cases Hrun.
  all: injection Hrun as <- <-.
  all: eexists; split; [rewrite <- ?app_assoc; reflexivity|].
  all: repeat match goal with |- _ /\ _ => split end.
  all: try reflexivity.
  all: try (cbn; repeat constructor; fail).
  all: intros img Hopen; try discriminate Hopen; injection Hopen as <-.
  all: cbn; repeat constructor.
  all: apply String.eqb_eq; assumption.
Qed.

(** The same for a turn of the loop, however it ends. *)
Lemma process_file_calls filename t :
  exists evs r,
    process_file E input_folder output_folder page_width page_height dpi filename t
      = (t ++ evs, r) /\
    opens evs = (if is_supported filename
                 then [path_join E input_folder filename] else []) /\
    Forall (eq (path_join E output_folder "temp.jpg")) (saves evs) /\
    Forall (eq (path_join E output_folder "temp.jpg")) (removes evs) /\
    Forall (fun p => is_supported filename = true /\
              p = path_join E output_folder (fst (splitext E filename) +:+ ".pdf"))
      (pdf_outputs evs) /\
    dir_calls evs = [].
Proof.
  destruct (is_supported filename) eqn:Hsup.
  - rewrite (process_file_supported _ _ _ _ _ _ _ _ Hsup).
    destruct (convert_one _ _ _ _ _ _ _ t) as [t' [[]|e]] eqn:Hrun;
      apply convert_one_calls in Hrun
        as (evs & -> & Hop & Hsv & Hrm & Hout & Hdir & _).
    + exists evs, (Ok tt). repeat split; try assumption.
      eapply Forall_impl; [exact Hout|]. intros p <-. split; reflexivity.
    + exists (evs ++ [Print (Failed filename (str_exn e))]). eexists.
      rewrite app_assoc. split; [reflexivity|].
      unfold opens, saves, removes, pdf_outputs, dir_calls in *.
      rewrite !omap_app, List.filter_app, Hop, Hdir. cbn. rewrite !app_nil_r.
      repeat split; try assumption.
      eapply Forall_impl; [exact Hout|]. intros p <-. split; reflexivity.
  - rewrite (process_file_unsupported _ _ _ _ _ _ _ _ Hsup).
    exists [], (Ok tt). rewrite app_nil_r. repeat split; constructor.
Qed.

End TurnCalls.

(** ** The calls of a whole run *)

Section RunFacts.
Context {F : Type} `{PyNum F}.
Variable E : env F.
Variables input_folder output_folder : string.
Variable dpi : Z.

(** The loop, read call by call and however it ends: the files opened are
    the supported entries in their order, all of them when the loop
    returns, the first of them when it raises. *)
Lemma loop_calls page_width page_height entries t :
  exists evs r rest,
    for_each entries
      (process_file E input_folder output_folder page_width page_height dpi) t
      = (t ++ evs, r) /\
    map (path_join E input_folder) (List.filter is_supported entries)
      = opens evs ++ rest /\
    (r = Ok tt -> rest = []) /\
    Forall (eq (path_join E output_folder "temp.jpg")) (saves evs) /\
    Forall (eq (path_join E output_folder "temp.jpg")) (removes evs) /\
    Forall (fun p => exists filename,
              In filename entries /\ is_supported filename = true /\
              p = path_join E output_folder (fst (splitext E filename) +:+ ".pdf"))
      (pdf_outputs evs) /\
    dir_calls evs = [].
Proof.
  revert t. induction entries as [|filename entries IH]; intros t.
  - exists [], (Ok tt), []. rewrite app_nil_r. repeat split; constructor.
  - destruct (process_file_calls E input_folder output_folder page_width
                page_height dpi filename t)
      as (evs1 & r1 & H1 & Hop1 & Hsv1 & Hrm1 & Hout1 & Hdir1).
    assert (Hout1' :
      Forall (fun p => exists f,
                In f (filename :: entries) /\ is_supported f = true /\
                p = path_join E output_folder (fst (splitext E f) +:+ ".pdf"))
        (pdf_outputs evs1)).
    { eapply Forall_impl; [exact Hout1|]. intros p [Hs ->].
      exists filename. repeat split; [now left | assumption]. }
    assert (Hfilter :
      map (path_join E input_folder) (List.filter is_supported (filename :: entries))
        = opens evs1
            ++ map (path_join E input_folder) (List.filter is_supported entries)).
    { rewrite Hop1. cbn [List.filter]. now destruct (is_supported filename). }
    cbn [for_each]. unfold mbind, M_bind. rewrite H1.
    destruct r1 as [[]|e1].
    + destruct (IH (t ++ evs1))
        as (evs2 & r2 & rest & H2 & Hop2 & Hrest & Hsv2 & Hrm2 & Hout2 & Hdir2).
      exists (evs1 ++ evs2), r2, rest. rewrite H2, app_assoc.
      split; [reflexivity|].
      unfold opens, saves, removes, pdf_outputs, dir_calls in *.
      rewrite !omap_app, List.filter_app, Hdir1, Hdir2.
      split; [now rewrite Hfilter, Hop2, app_assoc|].
      split; [assumption|].
      split; [now apply Forall_app|]. split; [now apply Forall_app|].
      split; [|reflexivity].
      apply Forall_app. split; [assumption|].
      eapply Forall_impl; [exact Hout2|]. intros p (f & Hin & Hs & ->).
      exists f. repeat split; [now right | assumption].
    + exists evs1, (Err e1),
        (map (path_join E input_folder) (List.filter is_supported entries)).
      split; [reflexivity|].
      split; [exact Hfilter|]. split; [intros [=]|].
      repeat split; assumption.
Qed.

(** Once the page size is resolved, the folder made and the directory
    listed, the call is the loop over the entries. *)
Lemma run_listed page_size page_width page_height entries t :
  resolve_page_size page_size = Ok (page_width, page_height) ->
  (path_exists E t output_folder = false ->
   raises E (t ++ [PathExists output_folder]) (Makedirs output_folder) = None) ->
  listdir E (t ++ setup_calls E output_folder t) input_folder = Ok entries ->
  convert_images_to_pdfs E input_folder output_folder page_size dpi t
    = for_each entries
        (process_file E input_folder output_folder page_width page_height dpi)
        (t ++ setup_calls E output_folder t ++ [Listdir input_folder]).
Proof.
  intros Hres Hmk Hls.
  unfold convert_images_to_pdfs, mbind, M_bind, lift, os_path_exists,
    os_listdir, perform, ret, setup_calls in *.
  rewrite Hres.
  destruct (path_exists E t output_folder); cbn [negb].
  - rewrite Hls. now rewrite <- app_assoc.
  - rewrite (Hmk eq_refl). rewrite <- !app_assoc in *. cbn [app] in *.
    now rewrite Hls.
Qed.


End RunFacts.

(** ** The theorems at work on the sample worlds *)

(** A 4000 x 1000 image on a square page of 100 mm: bound by the width. *)
Lemma C5_fit_width_bound_witness :
  is_zero (100 * mm_to_pt)%Q = false /\
  fgt (fdiv (100 * mm_to_pt) (100 * mm_to_pt))%Q 4%Q = false /\
  is_zero 4%Q = false /\
  exists g, fit (100 * mm_to_pt)%Q (100 * mm_to_pt)%Q 4%Q = Ok g /\
    pdf_page_width g = (100 * mm_to_pt)%Q /\
    pdf_page_height g = (100 * mm_to_pt)%Q /\
    img_width g = (100 * mm_to_pt)%Q /\
    img_height g = fdiv (100 * mm_to_pt)%Q 4%Q /\
    centred g.
Proof.
  split; [reflexivity|]. split; [reflexivity|]. split; [reflexivity|].
  destruct (C5_fit_height_or_width_bound
              (100 * mm_to_pt)%Q (100 * mm_to_pt)%Q 4%Q) as (_ & Hwidth & _);
    [reflexivity|].
  apply Hwidth; reflexivity.
Defined.

(** A console that cannot write the line of failure of [bad.jpg]: the
    error of that [print] leaves the turn of [bad.jpg] and the call, and
    [photo.JPG], which converts when it is alone, is never opened. *)
Lemma C6_unprinted_failure_ends_the_run :
  let cannot_open :=
    Exn "UnidentifiedImageError" "cannot identify image file 'in/bad.jpg'" in
  let cannot_print :=
    Exn "UnicodeEncodeError" "'charmap' codec can't encode characters" in
  let turn :=
    [ImageOpen "in/bad.jpg"; Print (Failed "bad.jpg" (str_exn cannot_open))] in
  listdir mute_console_env [PathExists "out"] "in" = Ok ["bad.jpg"; "photo.JPG"] /\
  is_supported "bad.jpg" = true /\
  is_supported "photo.JPG" = true /\
  process_file mute_console_env "in" "out" 216%Q 279%Q 300 "bad.jpg" []
    = (turn, Err cannot_print) /\
  convert_images_to_pdfs mute_console_env "in" "out" (VStr "letter") 300 []
    = ([PathExists "out"; Listdir "in"] ++ turn, Err cannot_print) /\
  snd (convert_one mute_console_env "in" "out" 216%Q 279%Q 300 "photo.JPG" [])
    = Ok tt /\
  pdf_outputs
    (fst (convert_one mute_console_env "in" "out" 216%Q 279%Q 300 "photo.JPG" []))
    = ["out/photo.pdf"] /\
  pdf_outputs
    (fst (convert_images_to_pdfs mute_console_env "in" "out" (VStr "letter") 300 []))
    = [].
Proof. cbv zeta. repeat split. Qed.

(** The sample directory: [bad.jpg] fails before [photo.JPG], whose PDF is
    written. *)
Lemma C6_file_errors_are_caught_witness :
  let body := process_file sample_env "in" "out" 216%Q 279%Q 300 in
  let pdf := PdfOutput "out/photo.pdf" "F" in
  (forall t0 f text, raises sample_env t0 (Print (Failed f text)) = None) /\
  exists evs1 evs2 evs3,
    for_each ["a.png"; "bad.jpg"; "photo.TXT"] body [] = ([] ++ evs1, Ok tt) /\
    body "photo.JPG" ([] ++ evs1) = (([] ++ evs1) ++ evs2, Ok tt) /\
    for_each [] body (([] ++ evs1) ++ evs2) = ((([] ++ evs1) ++ evs2) ++ evs3, Ok tt) /\
    for_each (["a.png"; "bad.jpg"; "photo.TXT"] ++ "photo.JPG" :: []) body []
      = ((([] ++ evs1) ++ evs2) ++ evs3, Ok tt) /\
    (is_supported "photo.JPG" = true ->
     forall t1,
       convert_one sample_env "in" "out" 216%Q 279%Q 300 "photo.JPG" ([] ++ evs1)
         = (t1, Ok tt) ->
       exists pre post,
         evs2 = pre ++ pdf :: post /\
         raises sample_env (([] ++ evs1) ++ pre) pdf = None).
Proof.
  intros body pdf.
  assert (Hprint : forall t0 f text,
            raises sample_env t0 (Print (Failed f text)) = None)
    by (intros; reflexivity).
  split; [exact Hprint|].
  exact (proj2 (proj2 (C6_file_errors_are_caught sample_env "in" "out"
                         216%Q 279%Q 300 ["a.png"; "bad.jpg"; "photo.TXT"]
                         "photo.JPG" [] [])) Hprint).
Defined.


(** [photo.JPG] converts: [out/photo.pdf] is written, [out/temp.jpg] removed. *)
Lemma C8_one_pdf_and_temp_removed_witness :
  let t' := fst (convert_one sample_env "in" "out" 216%Q 279%Q 300 "photo.JPG" []) in
  convert_one sample_env "in" "out" 216%Q 279%Q 300 "photo.JPG" [] = (t', Ok tt) /\
  exists evs,
    t' = [] ++ evs ++ [Remove "out/temp.jpg";
                       Print (Converted "photo.JPG" "photo.pdf" 216%Q 279%Q)] /\
    pdf_outputs (evs ++ [Remove "out/temp.jpg";
                         Print (Converted "photo.JPG" "photo.pdf" 216%Q 279%Q)])
      = ["out/photo.pdf"] /\
    (exists before, evs = before ++ [PdfOutput "out/photo.pdf" "F"] /\
       raises sample_env ([] ++ before) (PdfOutput "out/photo.pdf" "F") = None) /\
    (exists img, In (ImageSave img "out/temp.jpg" "JPEG" 95 (300, 300)%Z) evs) /\
    raises sample_env ([] ++ evs) (Remove "out/temp.jpg") = None /\
    messages evs = [].
Proof.
  intros t'. split; [reflexivity|].
  apply (C8_one_pdf_and_temp_removed sample_env "in" "out" 216%Q 279%Q 300
           "photo.JPG" [] t').
  reflexivity.
Defined.

(** Two files of 4000 x 1000 pixels, in two folders and after two different
    traces, under the letter page. *)
Lemma C9_same_image_same_layout_witness :
  let i := Image 4000 1000 "RGB" in
  let t2 := [Listdir "scans"] in
  let t1' := fst (convert_one sample_env "in" "out" 216%Q 279%Q 300 "photo.JPG" []) in
  let t2' := fst (convert_one sample_env "scans" "pdfs" 216%Q 279%Q 300 "x.gif" t2) in
  resolve_page_size (F:=Q) (VStr "letter") = Ok (216%Q, 279%Q) /\
  image_open sample_env [] (path_join sample_env "in" "photo.JPG") = Ok i /\
  image_open sample_env t2 (path_join sample_env "scans" "x.gif") = Ok i /\
  convert_one sample_env "in" "out" 216%Q 279%Q 300 "photo.JPG" [] = (t1', Ok tt) /\
  convert_one sample_env "scans" "pdfs" 216%Q 279%Q 300 "x.gif" t2 = (t2', Ok tt) /\
  exists evs1 evs2 g,
    t1' = [] ++ evs1 /\ t2' = t2 ++ evs2 /\
    geometry 216%Q 279%Q i = Ok g /\
    geometry 216%Q 279%Q i = Ok g /\
    page_formats evs1 = [(pdf_page_width g, pdf_page_height g)] /\
    page_formats evs2 = [(pdf_page_width g, pdf_page_height g)] /\
    placements evs1 = [(x_pos g, y_pos g, img_width g, img_height g)] /\
    placements evs2 = [(x_pos g, y_pos g, img_width g, img_height g)].
Proof.
  intros i t2 t1' t2'.
  split; [reflexivity|]. split; [reflexivity|]. split; [reflexivity|].
  split; [reflexivity|]. split; [reflexivity|].
  apply (C9_same_image_same_layout sample_env sample_env "in" "out" "scans" "pdfs"
           (VStr "letter") 300 216%Q 279%Q 216%Q 279%Q "photo.JPG" "x.gif"
           [] t2 t1' t2' i i);
    reflexivity.
Defined.

(** * Further properties *)

(** ** Where a call raises, and what a call touches *)

Section RunCalls.
Context {F : Type} `{PyNum F}.
Variable E : env F.
Variables input_folder output_folder : string.
Variable dpi : Z.

(** The call, by cases on the three steps that come before the loop. *)
Lemma run_unfold page_size t :
  convert_images_to_pdfs E input_folder output_folder page_size dpi t =
    match resolve_page_size page_size with
    | Err e => (t, Err e)
    | Ok (page_width, page_height) =>
        let t1 := t ++ setup_calls E output_folder t in
        match (if path_exists E t output_folder then None
               else raises E (t ++ [PathExists output_folder]) (Makedirs output_folder)) with
        | Some e => (t1, Err e)
        | None =>
            match listdir E t1 input_folder with
            | Err e => (t1 ++ [Listdir input_folder], Err e)
            | Ok entries =>
                for_each entries
                  (process_file E input_folder output_folder page_width page_height dpi)
                  (t1 ++ [Listdir input_folder])
            end
        end
    end.
Proof.
  unfold convert_images_to_pdfs, mbind, M_bind, lift, os_path_exists,
    os_listdir, perform, ret, setup_calls.
  destruct (resolve_page_size page_size) as [[page_width page_height]|e];
    [|reflexivity].
  cbv zeta. destruct (path_exists E t output_folder); cbn [negb].
  - reflexivity.
  - rewrite <- !app_assoc. cbn [app].
    destruct (raises E _ (Makedirs output_folder)); reflexivity.
Qed.

(** X1: a call that raises has raised in one of four places: while
    resolving the page size, with no call made; while making the output
    folder; while listing the input folder; or in the turn of a supported
    entry of the listing, when the body of the [try] raised and the [print]
    of the line of failure raised in the handler, after the turns of the
    entries before it returned.  The error of the call is the error of that
    place, and the trace ends with the call that raised. *)
Theorem X1_where_a_call_raises page_size t t' e :
  convert_images_to_pdfs E input_folder output_folder page_size dpi t = (t', Err e) ->
  (resolve_page_size page_size = Err e /\ t' = t) \/
  (path_exists E t output_folder = false /\
   raises E (t ++ [PathExists output_folder]) (Makedirs output_folder) = Some e /\
   t' = t ++ [PathExists output_folder; Makedirs output_folder]) \/
  (listdir E (t ++ setup_calls E output_folder t) input_folder = Err e /\
   t' = t ++ setup_calls E output_folder t ++ [Listdir input_folder]) \/
  (exists page_width page_height entries before filename after t0 t1 e0,
     resolve_page_size page_size = Ok (page_width, page_height) /\
     listdir E (t ++ setup_calls E output_folder t) input_folder = Ok entries /\
     entries = before ++ filename :: after /\
     is_supported filename = true /\
     for_each before
       (process_file E input_folder output_folder page_width page_height dpi)
       (t ++ setup_calls E output_folder t ++ [Listdir input_folder]) = (t0, Ok tt) /\
     convert_one E input_folder output_folder page_width page_height dpi filename t0
       = (t1, Err e0) /\
     raises E t1 (Print (Failed filename (str_exn e0))) = Some e /\
     t' = t1 ++ [Print (Failed filename (str_exn e0))]).
Proof.
  rewrite run_unfold.
  destruct (resolve_page_size page_size) as [[page_width page_height]|e0];
    [|intros [= <- <-]; now left].
  cbv zeta.
  destruct (if path_exists E t output_folder then None else _) as [e1|] eqn:Hmk.
  { intros [= <- <-]. right. left. unfold setup_calls.
    destruct (path_exists E t output_folder); [discriminate Hmk|]. auto. }
  destruct (listdir E _ input_folder) as [entries|e1] eqn:Hls.
  - intros Hloop. right. right. right.
    apply for_each_raises in Hloop
      as (before & filename & after & t0 & -> & Hbefore & Hturn).
    apply process_file_raises in Hturn as (Hsup & t1 & e1 & Hrun & Hprint & ->).
    exists page_width, page_height, (before ++ filename :: after), before, filename,
      after, t0, t1, e1.
    rewrite app_assoc. auto 10.
  - intros [= <- <-]. right. right. left. now rewrite app_assoc.
Qed.

(** What a call that returns went through. *)
Lemma run_returns page_size t t' :
  convert_images_to_pdfs E input_folder output_folder page_size dpi t = (t', Ok tt) ->
  exists page_width page_height entries,
    resolve_page_size page_size = Ok (page_width, page_height) /\
    listdir E (t ++ setup_calls E output_folder t) input_folder = Ok entries /\
    for_each entries
      (process_file E input_folder output_folder page_width page_height dpi)
      (t ++ setup_calls E output_folder t ++ [Listdir input_folder]) = (t', Ok tt).
Proof.
  rewrite run_unfold.
  destruct (resolve_page_size page_size) as [[page_width page_height]|e0];
    [|intros [=]].
  cbv zeta.
  destruct (if path_exists E t output_folder then None else _); [intros [=]|].
  destruct (listdir E _ input_folder) as [entries|e1] eqn:Hls; [|intros [=]].
  intros Hloop. exists page_width, page_height, entries.
  rewrite app_assoc. auto.
Qed.

(** The calls of a call, however it ends: the setup, the listing when the
    setup returns, the loop when the listing returns. *)
Lemma run_calls page_size t :
  exists evs r,
    convert_images_to_pdfs E input_folder output_folder page_size dpi t
      = (t ++ evs, r) /\
    Forall (eq (path_join E output_folder "temp.jpg")) (saves evs) /\
    Forall (eq (path_join E output_folder "temp.jpg")) (removes evs).
Proof.
  rewrite run_unfold.
  destruct (resolve_page_size page_size) as [[page_width page_height]|e0];
    [|exists [], (Err e0); rewrite app_nil_r; repeat split; constructor].
  cbv zeta.
  assert (Hsetup : saves (setup_calls E output_folder t) = [] /\
                   removes (setup_calls E output_folder t) = []).
  { unfold setup_calls. destruct (path_exists E t output_folder); split; reflexivity. }
  destruct Hsetup as [Hsv0 Hrm0].
  destruct (if path_exists E t output_folder then None else _) as [e1|].
  { eexists _, _. split; [reflexivity|]. rewrite Hsv0, Hrm0. split; constructor. }
  destruct (listdir E _ input_folder) as [entries|e1].
  - destruct (loop_calls E input_folder output_folder dpi page_width page_height
                entries ((t ++ setup_calls E output_folder t) ++ [Listdir input_folder]))
      as (evs & r & rest & -> & _ & _ & Hsv & Hrm & _).
    eexists _, r. rewrite <- !app_assoc. split; [reflexivity|].
    unfold saves, removes in *.
    rewrite (omap_app _ (setup_calls E output_folder t)), Hsv0.
    rewrite (omap_app _ (setup_calls E output_folder t)), Hrm0.
    rewrite !omap_app. simpl. split; assumption.
  - eexists _, _. rewrite <- app_assoc. split; [reflexivity|].
    unfold saves, removes in *.
    rewrite (omap_app _ (setup_calls E output_folder t)), Hsv0.
    rewrite (omap_app _ (setup_calls E output_folder t)), Hrm0.
    split; constructor.
Qed.

(** The calls of a call that returns: the setup, the listing, the loop. *)
Lemma run_returns_calls page_size t t' :
  convert_images_to_pdfs E input_folder output_folder page_size dpi t = (t', Ok tt) ->
  exists entries evs,
    listdir E (t ++ setup_calls E output_folder t) input_folder = Ok entries /\
    t' = t ++ (setup_calls E output_folder t ++ [Listdir input_folder]) ++ evs /\
    opens evs = map (path_join E input_folder) (List.filter is_supported entries) /\
    Forall (eq (path_join E output_folder "temp.jpg")) (saves evs) /\
    Forall (eq (path_join E output_folder "temp.jpg")) (removes evs) /\
    Forall (fun p => exists filename,
              In filename entries /\ is_supported filename = true /\
              p = path_join E output_folder (fst (splitext E filename) +:+ ".pdf"))
      (pdf_outputs evs) /\
    dir_calls evs = [].
Proof.
  intros Hrun. apply run_returns in Hrun as (pw & ph & entries & _ & Hls & Hloop).
  destruct (loop_calls E input_folder output_folder dpi pw ph entries
              (t ++ setup_calls E output_folder t ++ [Listdir input_folder]))
    as (evs & r & rest & Hloop' & Hop & Hrest & Hcalls).
  rewrite Hloop' in Hloop. injection Hloop as <- ->.
  rewrite (Hrest eq_refl), app_nil_r in Hop.
  exists entries, evs. split; [assumption|].
  split; [symmetry; apply (app_assoc t _ evs)|].
  split; [now symmetry | exact Hcalls].
Qed.

(** The setup and the listing open, save, remove and write nothing. *)
Lemma setup_reads t :
  let evs := setup_calls E output_folder t ++ [Listdir input_folder] in
  opens evs = [] /\ saves evs = [] /\ removes evs = [] /\ pdf_outputs evs = [] /\
  dir_calls evs = evs.
Proof.
  unfold setup_calls. destruct (path_exists E t output_folder); repeat split.
Qed.

(** X2: in a call that returns, the files opened are the supported entries
    of the listing, each once, in the order of the listing, at the path
    joined from the input folder; no other file is opened. *)
Theorem X2_supported_entries_opened_once_in_order page_size t t' :
  convert_images_to_pdfs E input_folder output_folder page_size dpi t = (t', Ok tt) ->
  exists entries evs,
    listdir E (t ++ setup_calls E output_folder t) input_folder = Ok entries /\
    t' = t ++ evs /\
    opens evs = map (path_join E input_folder) (List.filter is_supported entries).
Proof.
  intros Hrun.
  apply run_returns_calls in Hrun as (entries & evs & Hls & -> & Hop & _).
  destruct (setup_reads t) as (Hop0 & _).
  exists entries. eexists. split; [assumption|]. split; [reflexivity|].
  unfold opens in *. now rewrite omap_app, Hop0, Hop.
Qed.

(** X3: whatever the outcome of a call, the only path it saves an image to
    and the only path it removes is [temp.jpg] joined to the output folder. *)
Theorem X3_only_the_temporary_file_is_saved_and_removed page_size t t' r :
  convert_images_to_pdfs E input_folder output_folder page_size dpi t = (t', r) ->
  exists evs, t' = t ++ evs /\
    Forall (eq (path_join E output_folder "temp.jpg")) (saves evs) /\
    Forall (eq (path_join E output_folder "temp.jpg")) (removes evs).
Proof.
  intros Hrun. destruct (run_calls page_size t) as (evs & r' & Hrun' & Hsv & Hrm).
  rewrite Hrun' in Hrun. injection Hrun as <- _.
  exists evs. auto.
Qed.

(** X4: in a call that returns, every PDF is written to the output folder
    joined with the stem of a supported entry of the listing followed by
    [.pdf]. *)
Theorem X4_pdfs_written_only_for_supported_entries page_size t t' :
  convert_images_to_pdfs E input_folder output_folder page_size dpi t = (t', Ok tt) ->
  exists entries evs,
    listdir E (t ++ setup_calls E output_folder t) input_folder = Ok entries /\
    t' = t ++ evs /\
    Forall (fun p => exists filename,
              In filename entries /\ is_supported filename = true /\
              p = path_join E output_folder (fst (splitext E filename) +:+ ".pdf"))
      (pdf_outputs evs).
Proof.
  intros Hrun.
  apply run_returns_calls in Hrun as (entries & evs & Hls & -> & _ & _ & _ & Hout & _).
  destruct (setup_reads t) as (_ & _ & _ & Hout0 & _).
  exists entries. eexists. split; [assumption|]. split; [reflexivity|].
  unfold pdf_outputs in *. now rewrite omap_app, Hout0.
Qed.

(** X5: a call that returns asks once whether the output folder exists,
    makes it only when it does not, lists the input folder once, and makes
    no other call on directories; the loop makes none. *)
Theorem X5_directories_touched_once_before_the_loop page_size t t' :
  convert_images_to_pdfs E input_folder output_folder page_size dpi t = (t', Ok tt) ->
  exists evs, t' = t ++ evs /\
    dir_calls evs =
      PathExists output_folder ::
      (if path_exists E t output_folder then [] else [Makedirs output_folder])
      ++ [Listdir input_folder].
Proof.
  intros Hrun.
  apply run_returns_calls in Hrun as (entries & evs & _ & -> & _ & _ & _ & _ & Hdir).
  destruct (setup_reads t) as (_ & _ & _ & _ & Hdir0).
  eexists. split; [reflexivity|].
  unfold dir_calls in *. rewrite List.filter_app, Hdir0, Hdir, app_nil_r.
  reflexivity.
Qed.

End RunCalls.

(** ** Hazards of one conversion *)

Section TurnHazards.
Context {F : Type} `{PyNum F}.
Variable E : env F.
Variables input_folder output_folder : string.
Variables page_width page_height : F.
Variable dpi : Z.

(** X6: when a conversion raises after the PDF writer was created, the
    temporary JPEG had been saved and the save had returned.  If the line
    of success was not handed to [print], no removal has returned: either
    [os.remove] was not called, or it is the call that raised, and the
    temporary file is left in the output folder.  Otherwise the removal
    returned and it is the [print] of the line of success that raised. *)
Theorem X6_temporary_file_left_after_late_failure filename t evs e :
  convert_one E input_folder output_folder page_width page_height dpi filename t
    = (t ++ evs, Err e) ->
  page_formats evs <> [] ->
  let temp_path := path_join E output_folder "temp.jpg" in
  let success :=
    Print (Converted filename (fst (splitext E filename) +:+ ".pdf")
             page_width page_height) in
  saves evs = [temp_path] /\
  (exists before img after,
     evs = before ++ ImageSave img temp_path "JPEG" 95 (dpi, dpi) :: after /\
     raises E (t ++ before) (ImageSave img temp_path "JPEG" 95 (dpi, dpi)) = None) /\
  (messages evs = [] ->
   removes evs = [] \/
   exists before,
     evs = before ++ [Remove temp_path] /\
     raises E (t ++ before) (Remove temp_path) = Some e) /\
  (messages evs <> [] ->
   exists before,
     evs = before ++ [Remove temp_path; success] /\
     raises E (t ++ before) (Remove temp_path) = None /\
     raises E (t ++ before ++ [Remove temp_path]) success = Some e).
Proof.
  intros Hrun Hpf. cbv zeta. run_cases Hrun.
  all: try discriminate Hrun.
  all: injection Hrun as Ht <-.
  all: rewrite <- ?app_assoc in Ht; apply app_inv_head in Ht; subst evs.
  all: try (exfalso; apply Hpf; reflexivity).
  all: rewrite <- ?app_assoc in *; cbn [app] in *.
  all: split; [reflexivity|].
  all: split;
    [ match goal with
      | Hs : raises _ (_ ++ ?b) (ImageSave ?i ?p ?f ?q ?d) = None |- _ =>
          exists b, i; eexists; split; [reflexivity | exact Hs]
      end |].
  all: split; [intros Hm; try discriminate Hm | intros Hm; try (destruct (Hm eq_refl))].
  all: first
    [ left; reflexivity
    | right;
      match goal with
      | Hr : raises _ (_ ++ ?b) (Remove ?p) = Some _ |- _ =>
          exists b; split; [reflexivity | exact Hr]
      end
    | match goal with
      | Hr : raises _ (_ ++ ?b) (Remove ?p) = None |- _ =>
          exists b; split; [reflexivity|]; split; [exact Hr|];
          rewrite <- ?app_assoc; cbn [app]; assumption
      end ].
Qed.

(** X7: converting a file named [temp.jpg] from a folder that is also the
    output folder opens, overwrites and then removes one and the same path:
    when the conversion returns, the source image has been deleted. *)
Theorem X7_source_named_like_the_temporary_file_is_removed folder t t' :
  convert_one E folder folder page_width page_height dpi "temp.jpg" t = (t', Ok tt) ->
  let path := path_join E folder "temp.jpg" in
  is_supported "temp.jpg" = true /\
  exists evs, t' = t ++ evs /\
    opens evs = [path] /\ saves evs = [path] /\ removes evs = [path] /\
    exists before after,
      evs = before ++ Remove path :: after /\
      raises E (t ++ before) (Remove path) = None.
Proof.
  intros Hrun. apply convert_one_ok in Hrun.
  destruct Hrun as (img & g & _ & _ & _ & Hrm & ->).
  cbv zeta. split; [reflexivity|].
  eexists. split; [reflexivity|].
  unfold open_calls, write_calls in *.
  destruct (negb (mode img =? "RGB")); cbn [app] in *.
  all: repeat (split; [reflexivity|]).
  all: eexists _, _; split; [|exact Hrm]; reflexivity.
Qed.

(** X8: two files whose names have the same stem are written to the same
    PDF path of the output folder: the later conversion overwrites the
    PDF of the earlier one. *)
Theorem X8_same_stem_same_pdf_path f1 f2 t1 t1' t2 t2' :
  fst (splitext E f1) = fst (splitext E f2) ->
  convert_one E input_folder output_folder page_width page_height dpi f1 t1
    = (t1', Ok tt) ->
  convert_one E input_folder output_folder page_width page_height dpi f2 t2
    = (t2', Ok tt) ->
  exists evs1 evs2 path,
    t1' = t1 ++ evs1 /\ t2' = t2 ++ evs2 /\
    pdf_outputs evs1 = [path] /\ pdf_outputs evs2 = [path].
Proof.
  intros Hstem H1 H2.
  apply convert_one_ok in H1. destruct H1 as (i1 & g1 & _ & _ & _ & _ & ->).
  apply convert_one_ok in H2. destruct H2 as (i2 & g2 & _ & _ & _ & _ & ->).
  do 2 eexists. exists (path_join E output_folder (fst (splitext E f1) +:+ ".pdf")).
  split; [reflexivity|]. split; [reflexivity|].
  rewrite <- Hstem. unfold open_calls, write_calls.
  destruct (negb (mode i1 =? "RGB")), (negb (mode i2 =? "RGB")); split; reflexivity.
Qed.

(** X9: the image handed to the JPEG encoder is always in mode RGB and has
    the pixel size of the opened one; [convert] is called exactly when the
    opened image is not in mode RGB. *)
Theorem X9_saved_image_is_rgb_of_the_same_size filename t t' r img :
  image_open E t (path_join E input_folder filename) = Ok img ->
  convert_one E input_folder output_folder page_width page_height dpi filename t
    = (t', r) ->
  exists evs, t' = t ++ evs /\
    Forall (fun i => mode i = "RGB" /\ width i = width img /\ height i = height img)
      (saved_images evs) /\
    (In (ImageConvert img "RGB") evs <-> mode img <> "RGB").
Proof.
  intros Hopen Hrun.
  destruct (convert_one_calls E input_folder output_folder page_width page_height
              dpi filename t t' r Hrun) as (evs & -> & _ & _ & _ & _ & _ & Hsaved).
  exists evs. split; [reflexivity|]. split; [exact (Hsaved img Hopen)|].
  run_cases Hrun; try discriminate Hopen.
  all: injection Hopen as ->.
  all: injection Hrun as Ht _.
  all: rewrite <- ?app_assoc in Ht; apply app_inv_head in Ht; subst evs.
  all: match goal with
       | Hm : (mode _ =? "RGB") = true |- _ =>
           apply String.eqb_eq in Hm; split;
           [ cbn; intros Hin;
             repeat (destruct Hin as [Hin | Hin]; [discriminate Hin|]);
             destruct Hin
           | intros Hne; destruct (Hne Hm) ]
       | Hm : (mode _ =? "RGB") = false |- _ =>
           apply String.eqb_neq in Hm; split;
           [ intros _; exact Hm | intros _; cbn; auto ]
       end.
Qed.

End TurnHazards.

(** ** A page without height *)

Section ZeroPage.
Context {F : Type} `{PyNum F}.
Variable E : env F.
Variables input_folder output_folder : string.
Variables page_width page_height : F.
Variable dpi : Z.
Hypothesis zero_height : is_zero (fmul page_height mm_to_pt) = true.

Lemma geometry_zero_page img :
  geometry page_width page_height img = Err ZeroDivisionError.
Proof.
  unfold geometry, py_div at 1.
  destruct (is_zero (of_Z (height img))); [reflexivity|].
  cbn [mbind result_bind]. now rewrite fit_cases, zero_height.
Qed.

(** A turn on such a page, however it ends: every line is a line of
    failure. *)
Lemma process_file_zero_page filename t :
  exists evs r,
    process_file E input_folder output_folder page_width page_height dpi filename t
      = (t ++ evs, r) /\
    saves evs = [] /\ pdf_outputs evs = [] /\
    forallb is_failed (messages evs) = true /\
    reported evs = if is_supported filename then [filename] else [].
Proof.
  destruct (is_supported filename) eqn:Hsup.
  - rewrite (process_file_supported _ _ _ _ _ _ _ _ Hsup).
    destruct (convert_one _ _ _ _ _ _ _ t) as [t' r] eqn:Hrun.
    run_cases Hrun.
    all: try match goal with
         | Hg : geometry _ _ _ = Ok _ |- _ =>
             rewrite geometry_zero_page in Hg; discriminate Hg
         end.
    all: injection Hrun as <- <-.
    all: eexists _, _; rewrite <- ?app_assoc;
         (split; [reflexivity|]); repeat split.
  - rewrite (process_file_unsupported _ _ _ _ _ _ _ _ Hsup).
    exists [], (Ok tt). rewrite app_nil_r. repeat split.
Qed.

Lemma loop_zero_page entries t :
  exists evs r,
    for_each entries
      (process_file E input_folder output_folder page_width page_height dpi) t
      = (t ++ evs, r) /\
    saves evs = [] /\ pdf_outputs evs = [] /\
    forallb is_failed (messages evs) = true /\
    (r = Ok tt -> reported evs = List.filter is_supported entries).
Proof.
  revert t. induction entries as [|filename entries IH]; intros t.
  - exists [], (Ok tt). rewrite app_nil_r. repeat split.
  - destruct (process_file_zero_page filename t)
      as (evs1 & r1 & H1 & Hs1 & Ho1 & Hf1 & Hr1).
    cbn [for_each]. unfold mbind, M_bind. rewrite H1.
    destruct r1 as [[]|e1].
    + destruct (IH (t ++ evs1)) as (evs2 & r2 & H2 & Hs2 & Ho2 & Hf2 & Hr2).
      exists (evs1 ++ evs2), r2. rewrite H2, app_assoc. split; [reflexivity|].
      split; [unfold saves in *; now rewrite omap_app, Hs1, Hs2|].
      split; [unfold pdf_outputs in *; now rewrite omap_app, Ho1, Ho2|].
      split; [now rewrite messages_app, forallb_app, Hf1, Hf2|].
      intros Hr. rewrite reported_app, Hr1, (Hr2 Hr). cbn [List.filter].
      now destruct (is_supported filename).
    + exists evs1, (Err e1). repeat split; try assumption. intros [=].
Qed.


End ZeroPage.

(** ** The geometry in exact arithmetic *)

Lemma inject_Z_pos (z : Z) : (0 < z)%Z -> (0 < inject_Z z)%Q.
Proof. intros Hz. unfold Qlt. cbn. lia. Qed.

Lemma mm_to_pt_pos : (0 < mm_to_pt)%Q.
Proof. reflexivity. Qed.

(** The geometry of an image of positive pixel size is [fit] on the page in
    points at the exact ratio. *)
Lemma geometry_Q_fit (page_width page_height : Q) (img : image) :
  (0 < height img)%Z ->
  geometry page_width page_height img =
    fit (page_width * mm_to_pt)%Q (page_height * mm_to_pt)%Q
        (inject_Z (width img) / inject_Z (height img))%Q.
Proof.
  intros Hh. unfold geometry.
  rewrite (py_div_ok (F:=Q) _ _ (is_zero_Q_pos _ (inject_Z_pos _ Hh))).
  reflexivity.
Qed.

Lemma is_zero_Q_eq (a b : Q) : (a == b)%Q -> is_zero a = is_zero b.
Proof.
  intros Hab. cbn.
  destruct (Qeq_bool a 0) eqn:Ea, (Qeq_bool b 0) eqn:Eb; try reflexivity.
  - apply Qeq_bool_iff in Ea. rewrite Hab in Ea.
    apply Qeq_bool_iff in Ea. congruence.
  - apply Qeq_bool_iff in Eb. rewrite <- Hab in Eb.
    apply Qeq_bool_iff in Eb. congruence.
Qed.

Lemma fgt_Q_eq (a b b' : Q) : (b == b')%Q -> fgt a b = fgt a b'.
Proof.
  intros Hb. cbn. f_equal.
  destruct (Qle_bool a b) eqn:E1, (Qle_bool a b') eqn:E2; try reflexivity.
  - apply Qle_bool_iff in E1. rewrite Hb in E1.
    apply Qle_bool_iff in E1. congruence.
  - apply Qle_bool_iff in E2. rewrite <- Hb in E2.
    apply Qle_bool_iff in E2. congruence.
Qed.

(** [fit] sends equal ratios to equal layouts. *)
Lemma fit_Q_equiv (pw ph r r' : Q) :
  (r == r')%Q -> result_equiv (fit pw ph r) (fit pw ph r').
Proof.
  intros Hr. rewrite !fit_cases.
  rewrite <- (fgt_Q_eq (fdiv pw ph) r r' Hr), <- (is_zero_Q_eq r r' Hr).
  destruct (is_zero ph); [reflexivity|].
  destruct (fgt (fdiv pw ph) r).
  - cbn. unfold layout_equiv. cbn. rewrite Hr. repeat split; reflexivity.
  - destruct (is_zero r) eqn:Hz; [reflexivity|].
    assert (Hnz : ~ (r == 0)%Q).
    { intros H0. apply Qeq_bool_iff in H0. cbn in Hz. congruence. }
    cbn. unfold layout_equiv. cbn.
    assert (Hd : (pw / r == pw / r')%Q) by (rewrite Hr; reflexivity).
    rewrite Hd. repeat split; reflexivity.
Qed.

(** X13: the layout reads the ratio of the image only: the same picture at
    k times the pixel size, in any mode, gets the same layout, and raises
    if and only if the other raises. *)
Theorem X13_layout_depends_on_the_ratio_only
    (page_width page_height : Q) (w h k : Z) (mode1 mode2 : string) :
  (0 < k)%Z ->
  result_equiv
    (geometry page_width page_height (Image (k * w) (k * h) mode1))
    (geometry page_width page_height (Image w h mode2)).
Proof.
  intros Hk. unfold geometry, py_div. cbn [width height].
  assert (Hz : is_zero (of_Z (k * h)) = is_zero (of_Z h)).
  { cbn. unfold Qeq_bool. cbn. rewrite !Z.mul_1_r.
    destruct (Z.eqb_spec (k * h) 0) as [E|E], (Z.eqb_spec h 0) as [E'|E'];
      try reflexivity; nia. }
  rewrite Hz. destruct (is_zero (of_Z h)) eqn:Hh; [reflexivity|].
  cbn [mbind result_bind]. apply fit_Q_equiv.
  assert (Hh' : ~ (inject_Z h == 0)%Q).
  { intros H0. apply Qeq_bool_iff in H0. cbn in Hh. congruence. }
  change (inject_Z (k * w) / inject_Z (k * h) == inject_Z w / inject_Z h)%Q.
  rewrite !inject_Z_mult.
  assert (Hk' : ~ (inject_Z k == 0)%Q).
  { intros H0. unfold Qeq in H0. cbn in H0. lia. }
  set (K := inject_Z k) in *. set (W := inject_Z w) in *.
  set (Hi := inject_Z h) in *. clearbody K W Hi.
  field. split; assumption.
Qed.


(** X15: the page sizes the resolution accepts are the strings that lower
    to [letter] or [legal] and the tuples and lists of two elements; for
    every other value it raises the one [ValueError]. *)
Theorem X15_accepted_page_sizes {F} `{PyNum F} (page_size : pyval F) :
  ((exists p, resolve_page_size page_size = Ok p) <->
   (exists s, page_size = VStr s /\ (lower s = "letter" \/ lower s = "legal")) \/
   (exists a b, page_size = VTuple [a; b] \/ page_size = VList [a; b])) /\
  (resolve_page_size page_size = Err unsupported_page_size \/
   exists p, resolve_page_size page_size = Ok p).
Proof.
  destruct page_size as [s|items|items|].
  - rewrite resolve_str.
    destruct (String.eqb_spec (lower s) "letter") as [E1|E1].
    { split; [|right; eauto]. split; [|eauto].
      intros _. left. exists s. auto. }
    destruct (String.eqb_spec (lower s) "legal") as [E2|E2].
    { split; [|right; eauto]. split; [|eauto].
      intros _. left. exists s. auto. }
    split; [|now left]. split.
    + intros [p [=]].
    + intros [(s' & [= <-] & [E|E]) | (a & b & [[=]|[=]])]; contradiction.
  - destruct items as [|a [|b [|c items]]]; cbn.
    all: split; [|try (now left); right; eauto].
    all: split; [try (intros [p [=]]; fail); intros _; right; eauto|].
    all: try (intros _; eauto; fail).
    all: intros [(s' & [=] & _) | (a' & b' & [[=]|[=]])].
  - destruct items as [|a [|b [|c items]]]; cbn.
    all: split; [|try (now left); right; eauto].
    all: split; [try (intros [p [=]]; fail); intros _; right; eauto|].
    all: try (intros _; eauto; fail).
    all: intros [(s' & [=] & _) | (a' & b' & [[=]|[=]])].
  - cbn. split; [|now left]. split.
    + intros [p [=]].
    + intros [(s' & [=] & _) | (a' & b' & [[=]|[=]])].
Qed.

(** ** The page of every PDF *)

Section PageFormat.
Context {F : Type} `{PyNum F}.
Variable E : env F.
Variables input_folder output_folder : string.
Variables page_width page_height : F.
Variable dpi : Z.

(** The page of a layout is the page size times the factor, whatever the
    image. *)
Lemma geometry_page img g :
  geometry page_width page_height img = Ok g ->
  pdf_page_width g = fmul page_width mm_to_pt /\
  pdf_page_height g = fmul page_height mm_to_pt.
Proof.
  unfold geometry, py_div at 1.
  destruct (is_zero (of_Z (height img))); [intros [=]|].
  cbn [mbind result_bind]. rewrite fit_cases.
  destruct (is_zero (fmul page_height mm_to_pt)); [intros [=]|].
  destruct (fgt _ _); [intros [= <-]; split; reflexivity|].
  destruct (is_zero _); [intros [=]|].
  intros [= <-]. split; reflexivity.
Qed.

Lemma process_file_page_formats filename t :
  exists evs r,
    process_file E input_folder output_folder page_width page_height dpi filename t
      = (t ++ evs, r) /\
    Forall (eq (fmul page_width mm_to_pt, fmul page_height mm_to_pt))
      (page_formats evs).
Proof.
  destruct (is_supported filename) eqn:Hsup.
  - rewrite (process_file_supported _ _ _ _ _ _ _ _ Hsup).
    destruct (convert_one _ _ _ _ _ _ _ t) as [t' r] eqn:Hrun.
    run_cases Hrun.
    all: injection Hrun as <- <-.
    all: eexists _, _; rewrite <- ?app_assoc;
         (split; [reflexivity|]); cbn; repeat constructor.
    all: match goal with
         | Hg : geometry _ _ _ = Ok _ |- _ =>
             apply geometry_page in Hg; destruct Hg as [Hw Hh]; now rewrite Hw, Hh
         end.
  - rewrite (process_file_unsupported _ _ _ _ _ _ _ _ Hsup).
    exists [], (Ok tt). rewrite app_nil_r. split; [reflexivity | constructor].
Qed.

Lemma loop_page_formats entries t :
  exists evs r,
    for_each entries
      (process_file E input_folder output_folder page_width page_height dpi) t
      = (t ++ evs, r) /\
    Forall (eq (fmul page_width mm_to_pt, fmul page_height mm_to_pt))
      (page_formats evs).
Proof.
  revert t. induction entries as [|filename entries IH]; intros t.
  - exists [], (Ok tt). rewrite app_nil_r. split; [reflexivity | constructor].
  - destruct (process_file_page_formats filename t) as (evs1 & r1 & H1 & Hf1).
    cbn [for_each]. unfold mbind, M_bind. rewrite H1.
    destruct r1 as [[]|e1].
    + destruct (IH (t ++ evs1)) as (evs2 & r2 & H2 & Hf2).
      exists (evs1 ++ evs2), r2. rewrite H2, app_assoc. split; [reflexivity|].
      unfold page_formats in *. rewrite omap_app. now apply Forall_app.
    + exists evs1, (Err e1). split; [reflexivity | assumption].
Qed.

(** X16: all the PDFs of a call have the same page: every PDF writer is
    created with the resolved page size in millimetres times 2.83464567,
    width and height, whatever the images are. *)
Theorem X16_every_page_is_the_resolved_size_in_points page_size t t' :
  resolve_page_size page_size = Ok (page_width, page_height) ->
  convert_images_to_pdfs E input_folder output_folder page_size dpi t = (t', Ok tt) ->
  exists evs, t' = t ++ evs /\
    Forall (eq (fmul page_width mm_to_pt, fmul page_height mm_to_pt))
      (page_formats evs).
Proof.
  intros Hres Hrun.
  apply run_returns in Hrun as (pw & ph & entries & Hres' & _ & Hloop).
  rewrite Hres in Hres'. injection Hres' as <- <-.
  destruct (loop_page_formats entries
              (t ++ setup_calls E output_folder t ++ [Listdir input_folder]))
    as (evs & r & Hloop' & Hf).
  rewrite Hloop' in Hloop. apply (f_equal fst) in Hloop. cbn [fst] in Hloop.
  subst t'. eexists. rewrite <- app_assoc. split; [reflexivity|].
  unfold page_formats in *. rewrite omap_app. apply Forall_app. split; [|exact Hf].
  unfold setup_calls. destruct (path_exists E t output_folder); constructor.
Qed.

End PageFormat.

(** ** The further properties at work on the sample worlds *)

(** With the console that cannot write the line of failure of [bad.jpg],
    the call raises in the fourth place. *)
Lemma X1_where_a_call_raises_witness :
  let E := mute_console_env in
  let e := Exn "UnicodeEncodeError" "'charmap' codec can't encode characters" in
  let t' := [PathExists "out"; Listdir "in"; ImageOpen "in/bad.jpg";
             Print (Failed "bad.jpg" "cannot identify image file 'in/bad.jpg'")] in
  convert_images_to_pdfs E "in" "out" (VStr "letter") 300 [] = (t', Err e) /\
  ((resolve_page_size (F:=Q) (VStr "letter") = Err e /\ t' = []) \/
   (path_exists E [] "out" = false /\
    raises E ([] ++ [PathExists "out"]) (Makedirs "out") = Some e /\
    t' = [] ++ [PathExists "out"; Makedirs "out"]) \/
   (listdir E ([] ++ setup_calls E "out" []) "in" = Err e /\
    t' = [] ++ setup_calls E "out" [] ++ [Listdir "in"]) \/
   (exists page_width page_height entries before filename after t0 t1 e0,
      resolve_page_size (VStr "letter") = Ok (page_width, page_height) /\
      listdir E ([] ++ setup_calls E "out" []) "in" = Ok entries /\
      entries = before ++ filename :: after /\
      is_supported filename = true /\
      for_each before (process_file E "in" "out" page_width page_height 300)
        ([] ++ setup_calls E "out" [] ++ [Listdir "in"]) = (t0, Ok tt) /\
      convert_one E "in" "out" page_width page_height 300 filename t0
        = (t1, Err e0) /\
      raises E t1 (Print (Failed filename (str_exn e0))) = Some e /\
      t' = t1 ++ [Print (Failed filename (str_exn e0))])).
Proof.
  intros E e t'. split; [reflexivity|].
  apply (X1_where_a_call_raises E "in" "out" 300 (VStr "letter") [] t' e).
  reflexivity.
Defined.

Lemma X2_supported_entries_opened_once_in_order_witness :
  let t' := fst (convert_images_to_pdfs sample_env "in" "out" (VStr "letter") 300 []) in
  convert_images_to_pdfs sample_env "in" "out" (VStr "letter") 300 [] = (t', Ok tt) /\
  exists entries evs,
    listdir sample_env ([] ++ setup_calls sample_env "out" []) "in" = Ok entries /\
    t' = [] ++ evs /\
    opens evs = map (path_join sample_env "in") (List.filter is_supported entries).
Proof.
  intros t'. split; [reflexivity|].
  apply (X2_supported_entries_opened_once_in_order sample_env "in" "out" 300
           (VStr "letter") [] t').
  reflexivity.
Defined.

Lemma X3_only_the_temporary_file_is_saved_and_removed_witness :
  let t' := fst (convert_images_to_pdfs sample_env "in" "out" (VStr "letter") 300 []) in
  convert_images_to_pdfs sample_env "in" "out" (VStr "letter") 300 [] = (t', Ok tt) /\
  exists evs, t' = [] ++ evs /\
    Forall (eq (path_join sample_env "out" "temp.jpg")) (saves evs) /\
    Forall (eq (path_join sample_env "out" "temp.jpg")) (removes evs).
Proof.
  intros t'. split; [reflexivity|].
  apply (X3_only_the_temporary_file_is_saved_and_removed sample_env "in" "out" 300
           (VStr "letter") [] t' (Ok tt)).
  reflexivity.
Defined.

Lemma X4_pdfs_written_only_for_supported_entries_witness :
  let t' := fst (convert_images_to_pdfs sample_env "in" "out" (VStr "letter") 300 []) in
  convert_images_to_pdfs sample_env "in" "out" (VStr "letter") 300 [] = (t', Ok tt) /\
  exists entries evs,
    listdir sample_env ([] ++ setup_calls sample_env "out" []) "in" = Ok entries /\
    t' = [] ++ evs /\
    Forall (fun p => exists filename,
              In filename entries /\ is_supported filename = true /\
              p = path_join sample_env "out"
                    (fst (splitext sample_env filename) +:+ ".pdf"))
      (pdf_outputs evs).
Proof.
  intros t'. split; [reflexivity|].
  apply (X4_pdfs_written_only_for_supported_entries sample_env "in" "out" 300
           (VStr "letter") [] t').
  reflexivity.
Defined.

Lemma X5_directories_touched_once_before_the_loop_witness :
  let t' := fst (convert_images_to_pdfs sample_env "in" "out" (VStr "letter") 300 []) in
  convert_images_to_pdfs sample_env "in" "out" (VStr "letter") 300 [] = (t', Ok tt) /\
  exists evs, t' = [] ++ evs /\
    dir_calls evs =
      PathExists "out" ::
      (if path_exists sample_env [] "out" then [] else [Makedirs "out"])
      ++ [Listdir "in"].
Proof.
  intros t'. split; [reflexivity|].
  apply (X5_directories_touched_once_before_the_loop sample_env "in" "out" 300
           (VStr "letter") [] t').
  reflexivity.
Defined.

(** On the full disk the PDF of [photo.JPG] cannot be written: the JPEG
    stays. *)
Lemma X6_temporary_file_left_after_late_failure_witness :
  let e := Exn "OSError" "[Errno 28] No space left on device" in
  let g := {| pdf_page_width := 216 * mm_to_pt; pdf_page_height := 279 * mm_to_pt;
              img_width := 216 * mm_to_pt;
              img_height := 216 * mm_to_pt / (inject_Z 4000 / inject_Z 1000);
              x_pos := (216 * mm_to_pt - 216 * mm_to_pt) / inject_Z 2;
              y_pos := (279 * mm_to_pt
                        - 216 * mm_to_pt / (inject_Z 4000 / inject_Z 1000))
                       / inject_Z 2 |}%Q in
  let evs := open_calls "in/photo.JPG" (Image 4000 1000 "RGB")
             ++ write_calls "out/temp.jpg" "out/photo.pdf" 300
                  (Image 4000 1000 "RGB") g in
  let success := Print (Converted "photo.JPG" "photo.pdf" 216%Q 279%Q) in
  convert_one full_disk_env "in" "out" 216%Q 279%Q 300 "photo.JPG" []
    = ([] ++ evs, Err e) /\
  page_formats evs <> [] /\
  saves evs = ["out/temp.jpg"] /\
  (exists before img after,
     evs = before ++ ImageSave img "out/temp.jpg" "JPEG" 95 (300, 300)%Z :: after /\
     raises full_disk_env ([] ++ before)
       (ImageSave img "out/temp.jpg" "JPEG" 95 (300, 300)%Z) = None) /\
  (messages evs = [] ->
   removes evs = [] \/
   exists before,
     evs = before ++ [Remove "out/temp.jpg"] /\
     raises full_disk_env ([] ++ before) (Remove "out/temp.jpg") = Some e) /\
  (messages evs <> [] ->
   exists before,
     evs = before ++ [Remove "out/temp.jpg"; success] /\
     raises full_disk_env ([] ++ before) (Remove "out/temp.jpg") = None /\
     raises full_disk_env ([] ++ before ++ [Remove "out/temp.jpg"]) success = Some e).
Proof.
  intros e g evs success. split; [reflexivity|]. split; [discriminate|].
  apply (X6_temporary_file_left_after_late_failure full_disk_env "in" "out"
           216%Q 279%Q 300 "photo.JPG" [] evs e);
    [reflexivity | discriminate].
Defined.

(** A folder converted into itself with an image named [temp.jpg]. *)
Lemma X7_source_named_like_the_temporary_file_is_removed_witness :
  let t' := fst (convert_one sample_env "pics" "pics" 216%Q 279%Q 300 "temp.jpg" []) in
  convert_one sample_env "pics" "pics" 216%Q 279%Q 300 "temp.jpg" [] = (t', Ok tt) /\
  is_supported "temp.jpg" = true /\
  exists evs, t' = [] ++ evs /\
    opens evs = ["pics/temp.jpg"] /\ saves evs = ["pics/temp.jpg"] /\
    removes evs = ["pics/temp.jpg"] /\
    exists before after,
      evs = before ++ Remove "pics/temp.jpg" :: after /\
      raises sample_env ([] ++ before) (Remove "pics/temp.jpg") = None.
Proof.
  intros t'. split; [reflexivity|].
  apply (X7_source_named_like_the_temporary_file_is_removed sample_env
           216%Q 279%Q 300 "pics" [] t').
  reflexivity.
Defined.

(** [a.png] and [a.jpg] both end in [out/a.pdf]. *)
Lemma X8_same_stem_same_pdf_path_witness :
  let t1' := fst (convert_one sample_env "in" "out" 216%Q 279%Q 300 "a.png" []) in
  let t2' := fst (convert_one sample_env "in" "out" 216%Q 279%Q 300 "a.jpg" t1') in
  fst (splitext sample_env "a.png") = fst (splitext sample_env "a.jpg") /\
  convert_one sample_env "in" "out" 216%Q 279%Q 300 "a.png" [] = (t1', Ok tt) /\
  convert_one sample_env "in" "out" 216%Q 279%Q 300 "a.jpg" t1' = (t2', Ok tt) /\
  exists evs1 evs2 path,
    t1' = [] ++ evs1 /\ t2' = t1' ++ evs2 /\
    pdf_outputs evs1 = [path] /\ pdf_outputs evs2 = [path].
Proof.
  intros t1' t2'. split; [reflexivity|]. split; [reflexivity|].
  split; [reflexivity|].
  apply (X8_same_stem_same_pdf_path sample_env "in" "out" 216%Q 279%Q 300
           "a.png" "a.jpg" [] t1' t1' t2');
    reflexivity.
Defined.

(** [a.png] opens in mode RGBA and is converted before it is saved. *)
Lemma X9_saved_image_is_rgb_of_the_same_size_witness :
  let img := Image 1000 2000 "RGBA" in
  let t' := fst (convert_one sample_env "in" "out" 216%Q 279%Q 300 "a.png" []) in
  image_open sample_env [] (path_join sample_env "in" "a.png") = Ok img /\
  convert_one sample_env "in" "out" 216%Q 279%Q 300 "a.png" [] = (t', Ok tt) /\
  exists evs, t' = [] ++ evs /\
    Forall (fun i => mode i = "RGB" /\ width i = width img /\ height i = height img)
      (saved_images evs) /\
    (In (ImageConvert img "RGB") evs <-> mode img <> "RGB").
Proof.
  intros img t'. split; [reflexivity|]. split; [reflexivity|].
  apply (X9_saved_image_is_rgb_of_the_same_size sample_env "in" "out"
           216%Q 279%Q 300 "a.png" [] t' (Ok tt) img);
    reflexivity.
Defined.


(** 1000 x 2000 and 100 x 200 on the letter page. *)
Lemma X13_layout_depends_on_the_ratio_only_witness :
  (0 < 10)%Z /\
  result_equiv
    (geometry 216%Q 279%Q (Image (10 * 100) (10 * 200) "RGB"))
    (geometry 216%Q 279%Q (Image 100 200 "L")).
Proof.
  split; [reflexivity|].
  apply (X13_layout_depends_on_the_ratio_only 216%Q 279%Q 100 200 10 "RGB" "L").
  reflexivity.
Defined.


Lemma X16_every_page_is_the_resolved_size_in_points_witness :
  let t' := fst (convert_images_to_pdfs sample_env "in" "out" (VStr "letter") 300 []) in
  resolve_page_size (F:=Q) (VStr "letter") = Ok (216%Q, 279%Q) /\
  convert_images_to_pdfs sample_env "in" "out" (VStr "letter") 300 [] = (t', Ok tt) /\
  exists evs, t' = [] ++ evs /\
    Forall (eq (fmul 216%Q mm_to_pt, fmul 279%Q mm_to_pt)) (page_formats evs).
Proof.
  intros t'. split; [reflexivity|]. split; [reflexivity|].
  apply (X16_every_page_is_the_resolved_size_in_points sample_env "in" "out"
           216%Q 279%Q 300 (VStr "letter") [] t');
    reflexivity.
Defined.
